(** * Verification of the penguin-classifier pipeline scripts

    The notebook [notebooks/ml_pipeline.ipynb] writes four Python files:
    [preprocessing.py], [train_and_deploy.py], [evaluate.py] and
    [serving_lambda.py].  This development embeds them shallowly.

    - Python [str] is modelled by [string]; one [ascii] stands for one
      character.  Every separator the scripts use is an ASCII character.
    - Python exceptions are values of [exn]; a call that may raise returns
      a [result].
    - Scripts run in a [world]: the container's files, its standard
      output and the requests sent to the model endpoint.  Effects
      performed before an exception is raised persist.
    - Functions of pandas, scikit-learn, joblib, json, argparse, tarfile
      and boto3 are not part of the repository; they are the fields of
      the class [Libraries] and the theorems hold for every
      implementation of it. *)

From Stdlib Require Import ZArith String Ascii List Permutation.
From Stdlib.Floats Require Import SpecFloat.
From stdpp Require Import base option list strings pretty gmap fin_maps.

Local Open Scope string_scope.
Local Open Scope list_scope.

(** ** Exceptions and results *)

Module Py.

(** An exception instance: its class name and its message. *)
Inductive exn : Type :=
| Raise (cls : string) (msg : string).

Definition exn_class (e : exn) : string := let 'Raise c _ := e in c.
Definition exn_msg (e : exn) : string := let 'Raise _ m := e in m.

Inductive result (A : Type) : Type :=
| Ok (a : A)
| Err (e : exn).
Arguments Ok {A} a.
Arguments Err {A} e.

Definition is_ok {A} (r : result A) : bool :=
  match r with Ok _ => true | Err _ => false end.

#[export] Instance result_ret : MRet result := fun _ a => Ok a.
#[export] Instance result_bind : MBind result := fun _ _ f r =>
  match r with
  | Ok a => f a
  | Err e => Err e
  end.

(** A Python float is an IEEE-754 binary64 value. *)
Definition pyfloat : Type := spec_float.

(** ** String methods used by the scripts *)

(** [s.split(sep)] for a one-character separator: every occurrence of
    [sep] ends a field, so the result has one more field than [s] has
    separators; [''.split(sep)] is [['']]. *)
Fixpoint split (sep : ascii) (s : string) : list string :=
  match s with
  | EmptyString => [EmptyString]
  | String c rest =>
      if Ascii.eqb c sep then EmptyString :: split sep rest
      else match split sep rest with
           | [] => [String c EmptyString]
           | field :: fields => String c field :: fields
           end
  end.

(** [sep.join(fields)]. *)
Definition join (sep : string) (fields : list string) : string :=
  String.concat sep fields.

(** [s[:-1]]: all characters but the last; the empty string stays empty. *)
Fixpoint drop_last (s : string) : string :=
  match s with
  | EmptyString => EmptyString
  | String c EmptyString => EmptyString
  | String c rest => String c (drop_last rest)
  end.

Fixpoint mem_char (c : ascii) (chars : string) : bool :=
  match chars with
  | EmptyString => false
  | String d rest => Ascii.eqb c d || mem_char c rest
  end.

(** [s.lstrip(chars)]. *)
Fixpoint lstrip (chars : string) (s : string) : string :=
  match s with
  | EmptyString => EmptyString
  | String c rest => if mem_char c chars then lstrip chars rest else s
  end.

(** [s.rstrip(chars)]. *)
Fixpoint rstrip (chars : string) (s : string) : string :=
  match s with
  | EmptyString => EmptyString
  | String c rest =>
      match rstrip chars rest with
      | EmptyString => if mem_char c chars then EmptyString
                       else String c EmptyString
      | kept => String c kept
      end
  end.

(** [s.strip(chars)]. *)
Definition strip (chars : string) (s : string) : string :=
  rstrip chars (lstrip chars s).

(** [all_in chars s]: every character of [s] is one of [chars]. *)
Fixpoint all_in (chars s : string) : bool :=
  match s with
  | EmptyString => true
  | String c rest => mem_char c chars && all_in chars rest
  end.

Definition first_char (s : string) : option ascii := String.get 0 s.

Fixpoint last_char (s : string) : option ascii :=
  match s with
  | EmptyString => None
  | String c EmptyString => Some c
  | String _ rest => last_char rest
  end.

End Py.
Import Py.

(** ** JSON values, frames and arrays *)

(** What [json.loads] returns and [json.dumps] accepts. *)
#[warnings="-register-all"] Inductive json : Type :=
| JNull
| JBool (b : bool)
| JInt (z : Z)
| JFloat (x : pyfloat)
| JStr (s : string)
| JList (items : list json)
| JDict (d : gmap string json).

(** A JSON number: [json.loads] gives an [int] or a [float]. *)
Inductive number : Type :=
| NInt (z : Z)
| NFloat (x : pyfloat).

Definition json_of_number (n : number) : json :=
  match n with
  | NInt z => JInt z
  | NFloat x => JFloat x
  end.

(** A value stored in a frame: a float (NaN marks a missing value) or a
    Python string. *)
Inductive cell : Type :=
| Num (x : pyfloat)
| Str (s : string).

(** A column label: a name read from a header, or a position. *)
Inductive label : Type :=
| Name (s : string)
| Pos (i : nat).

(** A [pandas.DataFrame], row-major.  The row index is not modelled: the
    scripts only select rows by position and write files with
    [index=False]. *)
Record DataFrame : Type := mkDataFrame {
  df_columns : list label;
  df_rows : list (list cell)
}.

(** A [pandas.Series]. *)
Record Series : Type := mkSeries {
  s_name : label;
  s_values : list cell
}.

(** A two-dimensional float [numpy.ndarray] and a one-dimensional array of
    labels. *)
Definition matrix : Type := list (list pyfloat).
Definition vector : Type := list cell.

(** What [np.array] makes of a list of lists of floats: a two-dimensional
    array of floats when the lists have one length; when they have not,
    and numpy accepts that, a one-dimensional array ([dtype=object]) whose
    elements are the lists themselves. *)
Inductive ndarray : Type :=
| Array2 (rows : matrix)
| ArrayOfLists (items : list (list pyfloat)).

(** [a.tolist()]: an array is read as the list of what it holds, in
    order. *)
Definition tolist (a : ndarray) : list (list pyfloat) :=
  match a with
  | Array2 rows => rows
  | ArrayOfLists items => items
  end.

Coercion tolist : ndarray >-> list.

(** What scikit-learn accepts where it says "array-like". *)
Inductive array_like : Type :=
| OfFrame (df : DataFrame)
| OfSeries (s : Series)
| OfMatrix (m : matrix)
| OfArray (a : ndarray)
| OfVector (v : vector).

(** [header] argument of [pandas.read_csv]. *)
Inductive header_arg : Type := HeaderInfer | HeaderNone.

(** Transformers and estimators the scripts instantiate. *)
Inductive transformer : Type :=
| StandardScaler
| OneHotEncoder (sparse : bool).

Definition column_transformer : Type := list (list string * transformer).

Record LogisticRegression : Type := mkLogisticRegression {
  class_weight : string;
  solver : string
}.

(** One [parser.add_argument(flag, type=float, default=d)]. *)
Record float_argument : Type := mkArgument {
  arg_flag : string;
  arg_default : pyfloat
}.

(** A request sent through the SageMaker runtime client. *)
Record request : Type := mkRequest {
  EndpointName : string;
  ContentType : string;
  Body : string
}.

(** ** The libraries the scripts call *)

Class Libraries : Type := {
  (** a fitted scikit-learn model *)
  Model : Type;
  (** builtins: [float(s)], [str(x)], [bytes.decode('utf-8')] *)
  float : string -> result pyfloat;
  str : json -> string;
  str_of_vector : vector -> string;
  decode_utf8 : string -> result string;
  (** numpy: whether [np.array] makes an array of lists out of lists of
      different lengths, as it does before version 1.24 (the versions
      scikit-learn 0.20.0, the [framework_version] of the notebook, runs
      on), or raises, as it does from 1.24 on *)
  ragged_arrays : bool;
  (** json: [json.loads(s)], [json.dumps(v, indent=i)] *)
  json_loads : string -> result json;
  json_dumps : option nat -> json -> string;
  (** argparse: [parser.parse_known_args()] on [sys.argv[1:]], and the
      [repr] of the namespace *)
  parse_known_args :
    list float_argument -> list string ->
    result (gmap string pyfloat * list string);
  str_of_namespace : gmap string pyfloat -> string;
  (** pandas: parsing and printing CSV text *)
  parse_csv : header_arg -> string -> result DataFrame;
  frame_to_csv : DataFrame -> bool -> bool -> string;
  series_to_csv : Series -> bool -> bool -> string;
  (** scikit-learn *)
  fit_transform : column_transformer -> DataFrame -> result matrix;
  train_test_split :
    DataFrame -> Series -> pyfloat -> Z ->
    result (DataFrame * DataFrame * Series * Series);
  fit : LogisticRegression -> array_like -> array_like -> result Model;
  predict : Model -> array_like -> result vector;
  classification_report :
    array_like -> array_like -> bool -> result (gmap string json);
  accuracy_score : array_like -> array_like -> result pyfloat;
  (** joblib: the bytes of a dumped model, and loading them back *)
  joblib_dumps : Model -> string;
  joblib_loads : string -> result Model;
  (** tarfile: [extractall(path)] of an archive, as a change of the files *)
  tar_extractall :
    string -> string -> gmap string string -> result (gmap string string);
  (** the model endpoint behind [invoke_endpoint]: the bytes of the
      response body *)
  endpoint : request -> result string
}.

(** ** The world a script runs in *)

Record world : Type := mkWorld {
  files : gmap string string;
  stdout : list string;
  sent : list request
}.

Definition script (A : Type) : Type := world -> result A * world.

#[export] Instance script_ret : MRet script := fun _ a w => (Ok a, w).
#[export] Instance script_bind : MBind script := fun _ _ f m w =>
  match m w with
  | (Ok a, w') => f a w'
  | (Err e, w') => (Err e, w')
  end.

Definition lift {A} (r : result A) : script A := fun w => (r, w).

Definition raise {A} (cls msg : string) : result A := Err (Raise cls msg).

(** [print(line)] *)
Definition print (line : string) : script unit := fun w =>
  (Ok tt, mkWorld (files w) (stdout w ++ [line]) (sent w)).

(** [open(path).read()] *)
Definition read_file (path : string) : script string := fun w =>
  match files w !! path with
  | Some content => (Ok content, w)
  | None => (raise "FileNotFoundError" path, w)
  end.

(** [open(path, 'w').write(content)].  The write is taken to succeed: the
    directories the scripts write to are those the SageMaker container
    provides.  What a write that fails would leave behind is not
    modelled. *)
Definition write_file (path content : string) : script unit := fun w =>
  (Ok tt, mkWorld (<[path := content]> (files w)) (stdout w) (sent w)).

Definition ends_with_slash (s : string) : bool :=
  match String.get (String.length s - 1) s with
  | Some c => Ascii.eqb c "/"
  | None => false
  end.

(** [os.path.join(a, b)] on POSIX. *)
Definition path_join (a b : string) : string :=
  if String.prefix "/" b then b
  else if String.eqb a "" || ends_with_slash a then a ++ b
  else a ++ "/" ++ b.

(** ** pandas operations with a fixed meaning *)

Module pd.

Definition nan : pyfloat := S754_nan.

(** [pandas.isna] on one value. *)
Definition isna (c : cell) : bool :=
  match c with
  | Num S754_nan => true
  | _ => false
  end.

(** Equality of two values as the duplicate detection sees it: floats by
    [==] (so [0.0] and [-0.0] agree) with NaN equal to NaN, strings by
    [==]. *)
Definition cell_eqb (a b : cell) : bool :=
  match a, b with
  | Num x, Num y => SFeqb x y || (isna a && isna b)
  | Str s, Str t => String.eqb s t
  | _, _ => false
  end.

Fixpoint row_eqb (r1 r2 : list cell) : bool :=
  match r1, r2 with
  | [], [] => true
  | a :: r1', b :: r2' => cell_eqb a b && row_eqb r1' r2'
  | _, _ => false
  end.

Definition label_eqb (a b : label) : bool :=
  match a, b with
  | Name s, Name t => String.eqb s t
  | Pos i, Pos j => Nat.eqb i j
  | _, _ => false
  end.

Fixpoint column_index (l : label) (cols : list label) : option nat :=
  match cols with
  | [] => None
  | c :: rest =>
      if label_eqb c l then Some 0
      else match column_index l rest with
           | Some i => Some (S i)
           | None => None
           end
  end.

(** [pd.DataFrame(data=df, columns=names)]: the named columns in the
    given order; a name [df] does not have gives a column of NaN. *)
Definition reindex_columns (df : DataFrame) (names : list string)
  : DataFrame :=
  mkDataFrame
    (map Name names)
    (map (fun row =>
            map (fun n =>
                   match column_index (Name n) (df_columns df) with
                   | Some i => nth i row (Num nan)
                   | None => Num nan
                   end) names)
         (df_rows df)).

(** A row without a missing value. *)
Definition complete (row : list cell) : bool :=
  forallb (fun c => negb (isna c)) row.

(** [df.dropna()]: the rows without a missing value. *)
Definition dropna (df : DataFrame) : DataFrame :=
  mkDataFrame
    (df_columns df)
    (filter (fun row => complete row = true) (df_rows df)).

(** The loop behind [df.drop_duplicates()] with [keep='first']: a row is
    kept unless an equal row came before it. *)
Fixpoint first_occurrences (seen : list (list cell))
  (rows : list (list cell)) : list (list cell) :=
  match rows with
  | [] => []
  | r :: rest =>
      if existsb (row_eqb r) seen then first_occurrences seen rest
      else r :: first_occurrences (r :: seen) rest
  end.

Definition drop_duplicates (df : DataFrame) : DataFrame :=
  mkDataFrame (df_columns df) (first_occurrences [] (df_rows df)).

(** Keep the entries of [row] whose column label is not [l]. *)
Fixpoint without_label (l : label) (cols : list label) {A} (row : list A)
  : list A :=
  match cols, row with
  | c :: cols', x :: row' =>
      if label_eqb c l then without_label l cols' row'
      else x :: without_label l cols' row'
  | _, _ => []
  end.

(** [df.drop(columns=name)] *)
Definition drop (df : DataFrame) (name : string) : result DataFrame :=
  match column_index (Name name) (df_columns df) with
  | None => raise "KeyError" name
  | Some _ =>
      Ok (mkDataFrame
            (without_label (Name name) (df_columns df) (df_columns df))
            (map (without_label (Name name) (df_columns df)) (df_rows df)))
  end.

(** [df[name]] *)
Definition getitem (df : DataFrame) (name : string) : result Series :=
  match column_index (Name name) (df_columns df) with
  | None => raise "KeyError" name
  | Some i =>
      Ok (mkSeries (Name name)
                   (map (fun row => nth i row (Num nan)) (df_rows df)))
  end.

(** [pd.DataFrame(X)] for a two-dimensional array [X]: positional column
    labels. *)
Definition DataFrame_of_matrix (X : matrix) : DataFrame :=
  mkDataFrame
    (map Pos (seq 0 (length (hd [] X))))
    (map (map Num) X).

Section with_libraries.
Context `{Libraries}.

(** [pd.read_csv(path, header=h)] *)
Definition read_csv (path : string) (h : header_arg) : script DataFrame :=
  text ← read_file path;
  lift (parse_csv h text).

(** [df.to_csv(path, header=h, index=i)] *)
Definition DataFrame_to_csv (df : DataFrame) (path : string) (h i : bool)
  : script unit :=
  write_file path (frame_to_csv df h i).

(** [s.to_csv(path, header=h, index=i)] *)
Definition Series_to_csv (s : Series) (path : string) (h i : bool)
  : script unit :=
  write_file path (series_to_csv s h i).

End with_libraries.

End pd.

(** ** joblib *)

Module joblib.
Section with_libraries.
Context `{Libraries}.

(** [joblib.load(path)] *)
Definition load (path : string) : script Model :=
  bytes ← read_file path;
  lift (joblib_loads bytes).

(** [joblib.dump(model, path)] *)
Definition dump (model : Model) (path : string) : script unit :=
  write_file path (joblib_dumps model).

End with_libraries.
End joblib.

(** ** train_and_deploy.py *)

Module train_and_deploy.
Section with_libraries.
Context `{Libraries}.

Definition model_fn (model_dir : string) : script Model :=
  joblib.load (path_join model_dir "model.joblib").

(** Rows that all have the length of the first. *)
Definition rectangular (samples : list (list pyfloat)) : bool :=
  match samples with
  | [] => true
  | first :: rest =>
      forallb (fun row => Nat.eqb (length row) (length first)) rest
  end.

(** [np.array(samples)] for a list of lists of floats (never the empty
    list here: [split] returns at least one row).  Rows of one length
    make a two-dimensional array that holds them in order.  Rows of
    different lengths make an array of the lists where numpy accepts them
    and a [ValueError] where it does not. *)
Definition np_array (samples : list (list pyfloat)) : result ndarray :=
  if rectangular samples then Ok (Array2 samples)
  else if ragged_arrays then Ok (ArrayOfLists samples)
  else raise "ValueError"
         ("setting an array element with a sequence. The requested array has an inhomogeneous shape after 1 dimensions. The detected shape was ("
          ++ pretty (length samples) ++ ",) + inhomogeneous part.").

(** The [for r in request_body.split('|')] loop of [input_fn]; [samples]
    is the list built so far. *)
Fixpoint input_rows (rows : list string) (samples : list (list pyfloat))
  : result (list (list pyfloat)) :=
  match rows with
  | [] => Ok samples
  | r :: rest =>
      sample ← mapM float (split "," r);
      input_rows rest (samples ++ [sample])
  end.

Definition input_fn (request_body content_type : string)
  : result ndarray :=
  if String.eqb content_type "text/csv" then
    samples ← input_rows (split "|" request_body) [];
    np_array samples
  else
    raise "ValueError" "Thie model only supports text/csv input".

(** One pass of the loop body: [list(map(float, r.split(',')))]. *)
Definition parse_row (r : string) : result (list pyfloat) :=
  mapM float (split "," r).

(** The fields of a request body: what [float] is applied to. *)
Definition request_fields (request_body : string) : list string :=
  concat (map (split ",") (split "|" request_body)).

Definition predict_fn (input_data : ndarray) (model : Model)
  : result vector :=
  predict model (OfArray input_data).

Definition output_fn (prediction : vector) (content_type : string)
  : string :=
  str_of_vector prediction.

(** The [if __name__ == "__main__":] block. *)
Definition main : script unit :=
  let training_data_directory := "/opt/ml/input/data/train" in
  let train_features_data :=
    path_join training_data_directory "train_features.csv" in
  let train_labels_data :=
    path_join training_data_directory "train_labels.csv" in
  X_train ← pd.read_csv train_features_data HeaderNone;
  y_train ← pd.read_csv train_labels_data HeaderNone;
  let model := mkLogisticRegression "balanced" "lbfgs" in
  model ← lift (fit model (OfFrame X_train) (OfFrame y_train));
  let model_output_directory := path_join "/opt/ml/model" "model.joblib" in
  print ("Model saing path " ++ model_output_directory);;
  joblib.dump model model_output_directory.

End with_libraries.
End train_and_deploy.

(** ** serving_lambda.py *)

Module serving_lambda.
Section with_libraries.
Context `{Libraries}.

(** [d[key]] for a value that came out of [json.loads]. *)
Definition getitem (d : json) (key : string) : result json :=
  match d with
  | JDict m =>
      match m !! key with
      | Some v => Ok v
      | None => raise "KeyError" key
      end
  | _ => raise "TypeError" "indices must be integers or object is not subscriptable"
  end.

(** [json.loads(v)]: only a string can be parsed. *)
Definition loads (v : json) : result json :=
  match v with
  | JStr s => json_loads s
  | _ => raise "TypeError" "the JSON object must be str, bytes or bytearray"
  end.

Fixpoint chars (s : string) : list json :=
  match s with
  | EmptyString => []
  | String c rest => JStr (String c EmptyString) :: chars rest
  end.

(** What [for x in v] iterates over: the items of a list, the characters
    of a string, the keys of a dict.  A JSON object is kept as a finite
    map, which does not record the order of the keys in the text: the
    keys come in the order of the map, and nothing is made to depend on
    it. *)
Definition iter (v : json) : result (list json) :=
  match v with
  | JList items => Ok items
  | JStr s => Ok (chars s)
  | JDict d => Ok (map (fun kv => JStr (fst kv)) (map_to_list d))
  | JNull => raise "TypeError" "'NoneType' object is not iterable"
  | JBool _ => raise "TypeError" "'bool' object is not iterable"
  | JInt _ => raise "TypeError" "'int' object is not iterable"
  | JFloat _ => raise "TypeError" "'float' object is not iterable"
  end.

(** The [for sample in payload] loop; [body] is the string built so far. *)
Fixpoint format_samples (payload : list json) (body : string)
  : result string :=
  match payload with
  | [] => Ok body
  | sample :: rest =>
      ns ← iter sample;
      format_samples rest (body ++ join "," (map str ns) ++ "|")
  end.

(** The endpoint's wire format as the specification words it: the values
    of a sample joined with [","], the samples joined with ["|"].  The
    handler's loop is compared with it below. *)
Definition wire_format (samples : list (list json)) : string :=
  join "|" (map (fun sample => join "," (map str sample)) samples).

(** A request with content type ['text/csv']. *)
Definition csv_request (endpoint_name body : string) : request :=
  mkRequest endpoint_name "text/csv" body.

(** [runtime.invoke_endpoint(...)['Body'].read()] *)
Definition invoke_endpoint (name content_type body : string)
  : script string := fun w =>
  let req := mkRequest name content_type body in
  (endpoint req, mkWorld (files w) (stdout w) (sent w ++ [req])).

(** [endpoint_name] is the module-level [os.environ['ENDPOINT_NAME']]. *)
Definition lambda_handler (endpoint_name : string) (event context : json)
  : script string :=
  print ("Received event: " ++ json_dumps (Some 2) event);;
  data ← lift (json_loads (json_dumps None event));
  payload ← lift (field ← getitem data "data"; loads field);
  print (str payload);;
  let body := "" in
  samples ← lift (iter payload);
  body ← lift (format_samples samples body);
  let body := drop_last body in
  print ("request_body:  " ++ body);;
  response ← invoke_endpoint endpoint_name "text/csv" body;
  decoded ← lift (decode_utf8 response);
  let label := strip "'" (strip "[]" decoded) in
  mret label.

End with_libraries.
End serving_lambda.

(** ** preprocessing.py *)

Module preprocessing.

Definition features : list string :=
  [ "bill_length_mm";
    "bill_depth_mm";
    "flipper_length_mm";
    "species";
    "island" ].

Definition target : string := "sex".

Definition columns : list string := features ++ [target].

(** The float literal [0.3]: [5404319552844595 * 2^-54]. *)
Definition float_0_3 : pyfloat := S754_finite false 5404319552844595 (-54).

(** [make_column_transformer(...)] builds the list of its steps. *)
Definition make_column_transformer
  (steps : list (list string * transformer)) : column_transformer := steps.

Section with_libraries.
Context `{Libraries}.

(** [args.train_test_split] *)
Definition getattr (args : gmap string pyfloat) (dest : string)
  : result pyfloat :=
  match args !! dest with
  | Some v => Ok v
  | None =>
      raise "AttributeError"
            ("'Namespace' object has no attribute '" ++ dest ++ "'")
  end.

(** The [if __name__ == "__main__":] block; [argv] is [sys.argv[1:]]. *)
Definition main (argv : list string) : script unit :=
  (* Parse Arguments *)
  let parser := [mkArgument "--train-test-split" float_0_3] in
  '(args, _) ← lift (parse_known_args parser argv);
  split ← lift (getattr args "train_test_split");
  print ("Arguments " ++ str_of_namespace args);;
  (* Process input data *)
  let input_data_path :=
    path_join "/opt/ml/processing/input" "penguins.csv" in
  df ← pd.read_csv input_data_path HeaderInfer;
  let df := pd.reindex_columns df columns in
  let df := pd.dropna df in
  let df := pd.drop_duplicates df in
  (* Create sklearn preprocessing pipeline *)
  let preprocess_pipeline :=
    make_column_transformer
      [ (["bill_length_mm"; "bill_depth_mm"; "flipper_length_mm"],
         StandardScaler);
        (["species"; "island"], OneHotEncoder false) ] in
  (* Apply Pipeline *)
  X ← lift (inputs ← pd.drop df target;
            fit_transform preprocess_pipeline inputs);
  (* Split data into training and test set *)
  '(X_train, X_test, y_train, y_test) ←
    lift (labels ← pd.getitem df target;
          train_test_split (pd.DataFrame_of_matrix X) labels split 42);
  let train_features_output_path :=
    path_join "/opt/ml/processing/train" "train_features.csv" in
  let train_labels_output_path :=
    path_join "/opt/ml/processing/train" "train_labels.csv" in
  let test_features_output_path :=
    path_join "/opt/ml/processing/test" "test_features.csv" in
  let test_labels_output_path :=
    path_join "/opt/ml/processing/test" "test_labels.csv" in
  (* Save processed data as csv *)
  print ("Training features path " ++ train_features_output_path);;
  pd.DataFrame_to_csv X_train train_features_output_path false false;;
  print ("Test features path " ++ test_features_output_path);;
  pd.DataFrame_to_csv X_test test_features_output_path false false;;
  print ("Training labels path " ++ train_labels_output_path);;
  pd.Series_to_csv y_train train_labels_output_path false false;;
  print ("Test labels path " ++ test_labels_output_path);;
  pd.Series_to_csv y_test test_labels_output_path false false.

(** The files after the four writes of the script. *)
Definition written (fs : gmap string string)
  (X_train X_test : DataFrame) (y_train y_test : Series)
  : gmap string string :=
  <["/opt/ml/processing/test/test_labels.csv" :=
      series_to_csv y_test false false]>
    (<["/opt/ml/processing/train/train_labels.csv" :=
         series_to_csv y_train false false]>
       (<["/opt/ml/processing/test/test_features.csv" :=
            frame_to_csv X_test false false]>
          (<["/opt/ml/processing/train/train_features.csv" :=
               frame_to_csv X_train false false]> fs))).

End with_libraries.

(** The transformer the script builds. *)
Definition pipeline : column_transformer :=
  [ (["bill_length_mm"; "bill_depth_mm"; "flipper_length_mm"],
     StandardScaler);
    (["species"; "island"], OneHotEncoder false) ].

(** The frame the script has after cleaning, and the two things it takes
    from it: the five feature columns and the column of labels. *)
Definition cleaned (raw : DataFrame) : DataFrame :=
  pd.drop_duplicates (pd.dropna (pd.reindex_columns raw columns)).

Definition feature_frame (clean : DataFrame) : DataFrame :=
  mkDataFrame (map Name features) (map (firstn 5) (df_rows clean)).

Definition label_series (clean : DataFrame) : Series :=
  mkSeries (Name target)
           (map (fun row => nth 5 row (Num pd.nan)) (df_rows clean)).

(** A split partitions its input: every output has as many labels as
    rows, and the rows of the two outputs, each with its label, are the
    rows of the input, each with its label, in some order. *)
Definition partitions (X : DataFrame) (y : Series)
  (out : DataFrame * DataFrame * Series * Series) : Prop :=
  let '(X_train, X_test, y_train, y_test) := out in
  length (df_rows X_train) = length (s_values y_train) /\
  length (df_rows X_test) = length (s_values y_test) /\
  Permutation
    (combine (df_rows X_train) (s_values y_train)
     ++ combine (df_rows X_test) (s_values y_test))
    (combine (df_rows X) (s_values y)).

(** Rows in which no row equals, for the duplicate detection, a row
    before it. *)
Definition pairwise_distinct (rows : list (list cell)) : Prop :=
  ForallOrdPairs (fun earlier later => pd.row_eqb later earlier = false)
                 rows.

End preprocessing.

(** ** evaluate.py *)

Module evaluate.
Section with_libraries.
Context `{Libraries}.

(** [with tarfile.open(path) as tar: tar.extractall(path=dest)] *)
Definition extractall (path dest : string) : script unit := fun w =>
  match files w !! path with
  | None => (raise "FileNotFoundError" path, w)
  | Some archive =>
      match tar_extractall archive dest (files w) with
      | Ok files' => (Ok tt, mkWorld files' (stdout w) (sent w))
      | Err e => (Err e, w)
      end
  end.

(** The [if __name__ == "__main__":] block. *)
Definition main : script unit :=
  let model_path := path_join "/opt/ml/processing/model" "model.tar.gz" in
  print ("Extracting model from path: " ++ model_path);;
  extractall model_path ".";;
  print "Loading model";;
  model ← joblib.load "model.joblib";
  print "Loading test input data";;
  let test_features_data :=
    path_join "/opt/ml/processing/test" "test_features.csv" in
  let test_labels_data :=
    path_join "/opt/ml/processing/test" "test_labels.csv" in
  X_test ← pd.read_csv test_features_data HeaderNone;
  y_test ← pd.read_csv test_labels_data HeaderNone;
  predictions ← lift (predict model (OfFrame X_test));
  report ← lift (classification_report
                   (OfFrame y_test) (OfVector predictions) true);
  accuracy ← lift (accuracy_score (OfFrame y_test) (OfVector predictions));
  let report := <["accuracy" := JFloat accuracy]> report in
  print ("Classification report:" ++ String "010" (str (JDict report)));;
  let eval_output_path :=
    path_join "/opt/ml/processing/evaluation" "evaluation.json" in
  print ("Evaluation output path: " ++ eval_output_path);;
  write_file eval_output_path (json_dumps None (JDict report)).

End with_libraries.
End evaluate.


(** ** A small implementation of the libraries

    It knows a handful of float literals, comma-separated files without
    quoting, and a classifier that always answers with the first label it
    was trained on.  It serves to run the scripts on concrete inputs. *)

Module sample.
Local Open Scope string_scope.

#[export] Instance spec_float_eq_dec : EqDecision spec_float.
Proof. solve_decision. Defined.

Definition f_0_5 : pyfloat := S754_finite false 4503599627370496 (-53).
Definition f_1_5 : pyfloat := S754_finite false 6755399441055744 (-52).
Definition f_2_0 : pyfloat := S754_finite false 4503599627370496 (-51).

Definition literals : list (string * pyfloat) :=
  [ ("0.3", preprocessing.float_0_3); ("0.5", f_0_5); ("1.5", f_1_5);
    ("2.0", f_2_0); ("nan", S754_nan) ].

Definition float_impl (s : string) : result pyfloat :=
  match List.find (fun lv => String.eqb (fst lv) s) literals with
  | Some lv => Ok (snd lv)
  | None => raise "ValueError" ("could not convert string to float: " ++ s)
  end.

Definition float_repr (x : pyfloat) : string :=
  match List.find (fun lv => bool_decide (snd lv = x)) literals with
  | Some lv => fst lv
  | None => "?"
  end.

Definition str_impl (v : json) : string :=
  match v with
  | JNull => "None"
  | JBool true => "True"
  | JBool false => "False"
  | JInt z => pretty z
  | JFloat x => float_repr x
  | JStr s => s
  | JList _ => "[...]"
  | JDict _ => "{...}"
  end.

Definition cell_text (c : cell) : string :=
  match c with
  | Num S754_nan => ""
  | Num x => float_repr x
  | Str s => s
  end.

Definition str_of_vector_impl (v : vector) : string :=
  "[" ++ join " " (map (fun c => "'" ++ cell_text c ++ "'") v) ++ "]".

Definition dq : string := String "034" "".

(** The only documents this [json] knows. *)
Definition event_text (data : string) : string :=
  "{" ++ dq ++ "data" ++ dq ++ ": " ++ dq ++ data ++ dq ++ "}".

Definition event_of (data : string) : json :=
  JDict {[ "data" := JStr data ]}.

Definition documents : list (string * json) :=
  [ ("[[1.5, 2.0]]", JList [JList [JFloat f_1_5; JFloat f_2_0]]);
    ("[[1.5, 2], [0.5]]",
     JList [JList [JFloat f_1_5; JInt 2]; JList [JFloat f_0_5]]);
    (event_text "[[1.5, 2.0]]", event_of "[[1.5, 2.0]]");
    (event_text "[[1.5, 2], [0.5]]", event_of "[[1.5, 2], [0.5]]") ].

Definition json_loads_impl (s : string) : result json :=
  match List.find (fun d => String.eqb (fst d) s) documents with
  | Some d => Ok (snd d)
  | None => raise "JSONDecodeError" s
  end.

Definition json_dumps_impl (indent : option nat) (v : json) : string :=
  match v with
  | JDict d =>
      match d !! "data" with
      | Some (JStr data) => event_text data
      | _ => "{...}"
      end
  | _ => str_impl v
  end.

Fixpoint dest_of_flag (flag : string) : string :=
  match flag with
  | EmptyString => EmptyString
  | String c rest =>
      String (if Ascii.eqb c "-" then "_"%char else c) (dest_of_flag rest)
  end.

Definition parse_argument (argv : list string) (a : float_argument)
  : result (string * pyfloat) :=
  let dest := dest_of_flag (String.substring 2 (String.length (arg_flag a))
                                             (arg_flag a)) in
  match argv with
  | [flag; value] =>
      if String.eqb flag (arg_flag a)
      then (x ← float_impl value; Ok (dest, x))
      else Ok (dest, arg_default a)
  | _ => Ok (dest, arg_default a)
  end.

Definition parse_known_args_impl (parser : list float_argument)
  (argv : list string) : result (gmap string pyfloat * list string) :=
  parsed ← mapM (parse_argument argv) parser;
  Ok (list_to_map parsed, []).

Definition parse_cell (s : string) : cell :=
  if String.eqb s "" then Num S754_nan
  else match float_impl s with
       | Ok x => Num x
       | Err _ => Str s
       end.

Definition lines (text : string) : list string :=
  filter (fun l => l <> "") (split "010" text).

Definition parse_csv_impl (h : header_arg) (text : string) : result DataFrame :=
  let table := map (split ",") (lines text) in
  match h, table with
  | HeaderInfer, names :: rows =>
      Ok (mkDataFrame (map Name names) (map (map parse_cell) rows))
  | HeaderInfer, [] => raise "EmptyDataError" "No columns to parse from file"
  | HeaderNone, rows =>
      Ok (mkDataFrame (map Pos (seq 0 (length (hd [] rows))))
                      (map (map parse_cell) rows))
  end.

Definition unlines (rows : list string) : string :=
  String.concat "" (map (fun l => l ++ String "010" "") rows).

Definition frame_to_csv_impl (df : DataFrame) (h i : bool) : string :=
  unlines (map (fun row => join "," (map cell_text row)) (df_rows df)).

Definition series_to_csv_impl (s : Series) (h i : bool) : string :=
  unlines (map cell_text (s_values s)).

Definition floats_of (row : list cell) : list pyfloat :=
  omap (fun c => match c with Num x => Some x | Str _ => None end) row.

Definition fit_transform_impl (ct : column_transformer) (df : DataFrame)
  : result matrix :=
  match df_rows df with
  | [] => raise "ValueError" "Found array with 0 sample(s)"
  | rows => Ok (map floats_of rows)
  end.

Definition train_test_split_impl (X : DataFrame) (y : Series)
  (test_size : pyfloat) (random_state : Z)
  : result (DataFrame * DataFrame * Series * Series) :=
  if negb (Nat.eqb (length (df_rows X)) (length (s_values y)))
  then raise "ValueError" "Found input variables with inconsistent numbers of samples"
  else match df_rows X with
       | [] | [_] => raise "ValueError" "the resulting train set will be empty"
       | _ =>
           Ok (mkDataFrame (df_columns X) (List.skipn 1 (df_rows X)),
               mkDataFrame (df_columns X) (List.firstn 1 (df_rows X)),
               mkSeries (s_name y) (List.skipn 1 (s_values y)),
               mkSeries (s_name y) (List.firstn 1 (s_values y)))
       end.

Definition first_label (y : array_like) : result cell :=
  match y with
  | OfFrame (mkDataFrame _ ((c :: _) :: _)) => Ok c
  | OfSeries (mkSeries _ (c :: _)) => Ok c
  | OfVector (c :: _) => Ok c
  | _ => raise "ValueError" "no label to learn from"
  end.

Definition rows_of (X : array_like) : nat :=
  match X with
  | OfFrame df => length (df_rows df)
  | OfSeries s => length (s_values s)
  | OfMatrix m => length m
  | OfArray a => length (tolist a)
  | OfVector v => length v
  end.

Definition fit_impl (model : LogisticRegression) (X y : array_like)
  : result cell :=
  first_label y.

Definition predict_impl (model : cell) (X : array_like) : result vector :=
  Ok (repeat model (rows_of X)).

Definition classification_report_impl (y_true y_pred : array_like)
  (output_dict : bool) : result (gmap string json) :=
  Ok {[ "weighted avg" := JDict {[ "precision" := JFloat f_0_5 ]} ]}.

Definition accuracy_score_impl (y_true y_pred : array_like)
  : result pyfloat :=
  Ok f_0_5.

Definition tar_extractall_impl (archive dest : string)
  (fs : gmap string string) : result (gmap string string) :=
  Ok (<["model.joblib" := archive]> fs).

Definition endpoint_impl (req : request) : result string :=
  Ok "['male']".

#[export] Instance libraries : Libraries := {|
  Model := cell;
  float := float_impl;
  str := str_impl;
  str_of_vector := str_of_vector_impl;
  decode_utf8 := Ok;
  ragged_arrays := true;
  json_loads := json_loads_impl;
  json_dumps := json_dumps_impl;
  parse_known_args := parse_known_args_impl;
  str_of_namespace := fun _ => "Namespace(...)";
  parse_csv := parse_csv_impl;
  frame_to_csv := frame_to_csv_impl;
  series_to_csv := series_to_csv_impl;
  fit_transform := fit_transform_impl;
  train_test_split := train_test_split_impl;
  fit := fit_impl;
  predict := predict_impl;
  classification_report := classification_report_impl;
  accuracy_score := accuracy_score_impl;
  joblib_dumps := cell_text;
  joblib_loads := fun bytes => Ok (Str bytes);
  tar_extractall := tar_extractall_impl;
  endpoint := endpoint_impl
|}.

(** Concrete inputs. *)

Definition nl : string := String "010" "".

Definition empty_world : world := mkWorld ∅ [] [].

Definition event : json := event_of "[[1.5, 2], [0.5]]".

Definition training_world : world :=
  mkWorld
    {[ "/opt/ml/input/data/train/train_features.csv" :=
         "1.5,2.0" ++ nl ++ "0.5,0.3" ++ nl;
       "/opt/ml/input/data/train/train_labels.csv" :=
         "male" ++ nl ++ "female" ++ nl ]}
    [] [].

(** Six penguins: the second repeats the first on the selected columns,
    the third lacks a bill depth, the fifth lacks a sex. *)
Definition penguins_csv : string :=
  ",species,island,bill_length_mm,bill_depth_mm,flipper_length_mm,body_mass_g,sex,year" ++ nl ++
  "1,Adelie,Torgersen,1.5,2.0,0.5,0.3,male,2.0" ++ nl ++
  "2,Adelie,Torgersen,1.5,2.0,0.5,1.5,male,2.0" ++ nl ++
  "3,Gentoo,Biscoe,0.5,,0.5,1.5,female,2.0" ++ nl ++
  "4,Gentoo,Biscoe,0.5,0.3,0.5,1.5,female,2.0" ++ nl ++
  "5,Chinstrap,Dream,2.0,0.3,0.5,1.5,,2.0" ++ nl ++
  "6,Chinstrap,Dream,2.0,0.3,1.5,1.5,female,2.0" ++ nl.

Definition preprocessing_world : world :=
  mkWorld {[ "/opt/ml/processing/input/penguins.csv" := penguins_csv ]}
          [] [].

Definition evaluation_world : world :=
  mkWorld
    {[ "/opt/ml/processing/model/model.tar.gz" := "male";
       "/opt/ml/processing/test/test_features.csv" :=
         "1.5,2.0" ++ nl ++ "0.5,0.3" ++ nl;
       "/opt/ml/processing/test/test_labels.csv" :=
         "male" ++ nl ++ "female" ++ nl ]}
    [] [].

End sample.

(** ** The notebook's own cells

    Code the notebook runs itself, outside the four scripts: the test call
    to the endpoint and the paths and S3 locations it computes. *)

Module notebook.

(** The loop behind [s.split(sep)] for a separator of one or more
    characters: the string is scanned from the left, every occurrence of
    [sep] ends a field and the scan goes on after it.  [skip] counts the
    characters of a separator just found that are still to be passed. *)
Fixpoint split_on (sep : string) (skip : nat) (s : string) : list string :=
  match s with
  | EmptyString => [EmptyString]
  | String c rest =>
      match skip with
      | S k => split_on sep k rest
      | O =>
          if String.prefix sep s
          then EmptyString :: split_on sep (String.length sep - 1) rest
          else match split_on sep 0 rest with
               | [] => [String c EmptyString]
               | field :: fields => String c field :: fields
               end
      end
  end.

(** [s.split(sep)]; Python refuses the empty separator. *)
Definition str_split (sep s : string) : result (list string) :=
  if String.eqb sep "" then raise "ValueError" "empty separator"
  else Ok (split_on sep 0 s).

(** [s.split(sep, 1)] for a one-character separator: cut at the first
    occurrence only. *)
Fixpoint split_once (sep : ascii) (s : string) : list string :=
  match s with
  | EmptyString => [EmptyString]
  | String c rest =>
      if Ascii.eqb c sep then [EmptyString; rest]
      else match split_once sep rest with
           | [] => [String c EmptyString]
           | field :: fields => String c field :: fields
           end
  end.

(** [l[i]] for a list and [i >= 0]. *)
Definition list_getitem {A} (l : list A) (i : nat) : result A :=
  match nth_error l i with
  | Some x => Ok x
  | None => raise "IndexError" "list index out of range"
  end.

(** [a, b = l] *)
Definition unpack2 {A} (l : list A) : result (A * A) :=
  match l with
  | [a; b] => Ok (a, b)
  | [] => raise "ValueError" "not enough values to unpack (expected 2, got 0)"
  | [_] => raise "ValueError" "not enough values to unpack (expected 2, got 1)"
  | _ => raise "ValueError" "too many values to unpack (expected 2)"
  end.

(** [bucket, key = s3_path.split("//")[1].split("/",1)] *)
Definition bucket_and_key (s3_path : string) : result (string * string) :=
  parts ← str_split "//" s3_path;
  location ← list_getitem parts 1;
  unpack2 (split_once "/" location).

(** The [Bucket] and [Key] arguments of [client.get_object]. *)
Definition get_object_arguments (s3_path : string)
  : result (string * string) :=
  '(bucket, key) ← bucket_and_key s3_path;
  Ok (bucket, key +:+ "/evaluation.json").

(** The path read back after preprocessing:
    [processed_data_bucket + "train_features.csv"]. *)
Definition training_features_path (processed_data_bucket : string)
  : string :=
  processed_data_bucket ++ "train_features.csv".

Section with_libraries.
Context `{Libraries}.

(** The [for sample in training_data] loop of the endpoint test;
    [request_body] is the string built so far. *)
Fixpoint format_training_data (training_data : list (list pyfloat))
  (request_body : string) : string :=
  match training_data with
  | [] => request_body
  | sample :: rest =>
      format_training_data rest
        (request_body
         ++ join "," (map (fun n => str (JFloat n)) sample) ++ "|")
  end.

(** The request body of the endpoint test. *)
Definition request_body (training_data : list (list pyfloat)) : string :=
  let request_body := "" in
  let request_body := format_training_data training_data request_body in
  drop_last request_body.

End with_libraries.

(** [s] has two slashes in a row somewhere. *)
Fixpoint has_double_slash (s : string) : bool :=
  match s with
  | EmptyString => false
  | String c rest =>
      (Ascii.eqb c "/" && String.prefix "/" rest) || has_double_slash rest
  end.

End notebook.

(** ** The calls a job makes, and the exception each can raise

    A job stops at the first of its calls that raises.  [call_raises]
    lists, in the order of the script, each call on the very arguments
    the script gives it, the calls before it having returned. *)

Module jobs.
Section with_libraries.
Context `{Libraries}.

Definition train_features_data : string :=
  "/opt/ml/input/data/train/train_features.csv".
Definition train_labels_data : string :=
  "/opt/ml/input/data/train/train_labels.csv".
Definition input_data_path : string :=
  "/opt/ml/processing/input/penguins.csv".
Definition parser : list float_argument :=
  [mkArgument "--train-test-split" preprocessing.float_0_3].


(** The calls of the preprocessing job: [parse_known_args], the lookup of
    [args.train_test_split], [pd.read_csv], [df.drop] and
    [fit_transform], [df[target]] and [train_test_split]. *)
Inductive preprocessing_call_raises (argv : list string) (w : world)
  : exn -> Prop :=
| parse_known_args_raises e :
    parse_known_args parser argv = Err e ->
    preprocessing_call_raises argv w e
| getattr_raises args rest e :
    parse_known_args parser argv = Ok (args, rest) ->
    preprocessing.getattr args "train_test_split" = Err e ->
    preprocessing_call_raises argv w e
| read_csv_raises args rest split e :
    parse_known_args parser argv = Ok (args, rest) ->
    preprocessing.getattr args "train_test_split" = Ok split ->
    fst (pd.read_csv input_data_path HeaderInfer w) = Err e ->
    preprocessing_call_raises argv w e
| fit_transform_raises args rest split raw e :
    parse_known_args parser argv = Ok (args, rest) ->
    preprocessing.getattr args "train_test_split" = Ok split ->
    fst (pd.read_csv input_data_path HeaderInfer w) = Ok raw ->
    (inputs ← pd.drop (preprocessing.cleaned raw) preprocessing.target;
     fit_transform preprocessing.pipeline inputs) = Err e ->
    preprocessing_call_raises argv w e
| train_test_split_raises args rest split raw X e :
    parse_known_args parser argv = Ok (args, rest) ->
    preprocessing.getattr args "train_test_split" = Ok split ->
    fst (pd.read_csv input_data_path HeaderInfer w) = Ok raw ->
    (inputs ← pd.drop (preprocessing.cleaned raw) preprocessing.target;
     fit_transform preprocessing.pipeline inputs) = Ok X ->
    (labels ← pd.getitem (preprocessing.cleaned raw) preprocessing.target;
     train_test_split (pd.DataFrame_of_matrix X) labels split 42) = Err e ->
    preprocessing_call_raises argv w e.

End with_libraries.
End jobs.

(** ** How scikit-learn splits

    Modelled from scikit-learn's [train_test_split] and [ShuffleSplit],
    which are not part of the repository: the inputs must have the same
    number of rows; a permutation of the row positions is drawn from the
    random state; its first [n_test] positions select the test rows and,
    [train_size] being left out as in the script, all the others the
    train rows, of the features and of the labels alike.  How the
    permutation and [n_test] come from [random_state] and [test_size],
    and the sizes scikit-learn refuses, are left out: this is what the
    split returns when it returns. *)

Module sklearn.

(** [a.iloc[indices]]: the rows at the given positions, in their order. *)
Definition take_rows {A} (rows : list A) (indices : list nat) : list A :=
  omap (fun i => rows !! i) indices.

Definition shuffle_split (permutation : list nat) (n_test : nat)
  (X : DataFrame) (y : Series)
  : result (DataFrame * DataFrame * Series * Series) :=
  if negb (Nat.eqb (length (df_rows X)) (length (s_values y))) then
    raise "ValueError"
      ("Found input variables with inconsistent numbers of samples: ["
       +:+ pretty (length (df_rows X)) +:+ ", "
       +:+ pretty (length (s_values y)) +:+ "]")
  else
    let ind_test := take n_test permutation in
    let ind_train := drop n_test permutation in
    Ok (mkDataFrame (df_columns X) (take_rows (df_rows X) ind_train),
        mkDataFrame (df_columns X) (take_rows (df_rows X) ind_test),
        mkSeries (s_name y) (take_rows (s_values y) ind_train),
        mkSeries (s_name y) (take_rows (s_values y) ind_test)).

End sklearn.

(** ** The steps of the handler before it calls the endpoint *)

Section handler_steps.
Context `{Libraries}.

(** The request body the handler arrives at for an event, or the
    exception that stops it before any request is made. *)
Definition handler_request_body (event : json) : result string :=
  data ← json_loads (json_dumps None event);
  payload ← (field ← serving_lambda.getitem data "data";
             serving_lambda.loads field);
  samples ← serving_lambda.iter payload;
  body ← serving_lambda.format_samples samples "";
  Ok (drop_last body).

(** What the handler makes of the bytes the endpoint answers. *)
Definition handler_label (response : result string) : result string :=
  bytes ← response;
  decoded ← decode_utf8 bytes;
  Ok (strip "'" (strip "[]" decoded)).

End handler_steps.

(** ** More documents for the small implementation

    The same libraries as [sample], with a [json] that also knows events
    without a ['data'] key, with a ['data'] that is not a string, and
    payloads that are empty or flat. *)

Module sample_events.
Local Open Scope string_scope.

Definition no_data : json := JDict ∅.
Definition data_is_list : json := JDict {[ "data" := JList [] ]}.

Definition documents : list (string * json) :=
  [ ("{}", no_data);
    ("{data: []}", data_is_list);
    ("[]", JList []);
    ("[1.5, 2.0]", JList [JFloat sample.f_1_5; JFloat sample.f_2_0]);
    (sample.event_text "[]", sample.event_of "[]");
    (sample.event_text "[1.5, 2.0]", sample.event_of "[1.5, 2.0]") ].

Definition json_loads_impl (s : string) : result json :=
  match List.find (fun d => String.eqb (fst d) s) documents with
  | Some d => Ok (snd d)
  | None => sample.json_loads_impl s
  end.

Definition json_dumps_impl (indent : option nat) (v : json) : string :=
  match v with
  | JDict d =>
      match d !! "data" with
      | Some (JStr data) => sample.event_text data
      | Some _ => "{data: []}"
      | None => "{}"
      end
  | _ => sample.str_impl v
  end.

#[export] Instance libraries : Libraries := {|
  Model := cell;
  float := sample.float_impl;
  str := sample.str_impl;
  str_of_vector := sample.str_of_vector_impl;
  decode_utf8 := Ok;
  ragged_arrays := true;
  json_loads := json_loads_impl;
  json_dumps := json_dumps_impl;
  parse_known_args := sample.parse_known_args_impl;
  str_of_namespace := fun _ => "Namespace(...)";
  parse_csv := sample.parse_csv_impl;
  frame_to_csv := sample.frame_to_csv_impl;
  series_to_csv := sample.series_to_csv_impl;
  fit_transform := sample.fit_transform_impl;
  train_test_split := sample.train_test_split_impl;
  fit := sample.fit_impl;
  predict := sample.predict_impl;
  classification_report := sample.classification_report_impl;
  accuracy_score := sample.accuracy_score_impl;
  joblib_dumps := sample.cell_text;
  joblib_loads := fun bytes => Ok (Str bytes);
  tar_extractall := sample.tar_extractall_impl;
  endpoint := sample.endpoint_impl
|}.

End sample_events.
(** * Properties of the string methods *)

Section string_methods.
Local Open Scope string_scope.

Local Ltac char_cases c sep :=
  let E := fresh "E" in destruct (Ascii.eqb c sep) eqn:E; simpl in *.

Lemma split_nonempty sep s : split sep s <> [].
Proof.
  destruct s as [|c s]; simpl; [discriminate|].
  char_cases c sep; [discriminate|].
  destruct (split sep s); discriminate.
Qed.

(** A string without the separator is a single field. *)
Lemma split_no_sep sep s :
  mem_char sep s = false -> split sep s = [s].
Proof.
  induction s as [|c s IH]; simpl; [reflexivity|].
  rewrite Ascii.eqb_sym. char_cases c sep; [discriminate|].
  intros Hs. rewrite (IH Hs). reflexivity.
Qed.

(** Splitting after a field that has no separator in it. *)
Lemma split_app_sep sep s rest :
  mem_char sep s = false ->
  split sep (s ++ String sep rest) = s :: split sep rest.
Proof.
  induction s as [|c s IH]; simpl.
  - intros _. rewrite Ascii.eqb_refl. reflexivity.
  - rewrite Ascii.eqb_sym. char_cases c sep; [discriminate|].
    intros Hs. rewrite (IH Hs). reflexivity.
Qed.

(** [sep.join(fields).split(sep) == fields] when there is at least one
    field and no field contains the separator. *)
Lemma split_join sep fields :
  fields <> [] ->
  Forall (fun f => mem_char sep f = false) fields ->
  split sep (join (String sep "") fields) = fields.
Proof.
  intros Hne Hall. induction Hall as [|f fields Hf Hall IH]; [done|].
  destruct fields as [|g fields].
  - simpl. by apply split_no_sep.
  - change (join (String sep "") (f :: g :: fields))
      with (f ++ String sep (join (String sep "") (g :: fields))).
    rewrite split_app_sep by done. f_equal. by apply IH.
Qed.

(** Every field [split] returns is free of the separator. *)
Lemma split_fields_no_sep sep s :
  Forall (fun f => mem_char sep f = false) (split sep s).
Proof.
  induction s as [|c s IH]; simpl.
  - by constructor.
  - char_cases c sep.
    + by constructor.
    + destruct (split sep s) as [|f fs]; simpl.
      * constructor; [|done]. simpl. by rewrite Ascii.eqb_sym, E.
      * inversion IH; subst. constructor; [|done].
        simpl. by rewrite Ascii.eqb_sym, E.
Qed.

(** [split] loses nothing: joining its fields gives the string back. *)
Lemma join_split sep s : join (String sep "") (split sep s) = s.
Proof.
  induction s as [|c s IH]; simpl; [reflexivity|].
  char_cases c sep.
  - apply Ascii.eqb_eq in E as ->.
    pose proof (split_nonempty sep s) as Hne.
    destruct (split sep s) as [|f fs]; [done|].
    change (join (String sep "") ("" :: f :: fs))
      with (String sep (join (String sep "") (f :: fs))).
    by rewrite IH.
  - pose proof (split_nonempty sep s) as Hne.
    destruct (split sep s) as [|f fs]; [done|].
    destruct fs as [|g fs]; simpl in *; by rewrite <- IH.
Qed.

Lemma drop_last_app_char s c : drop_last (s ++ String c "") = s.
Proof.
  induction s as [|d s IH]; simpl; [reflexivity|].
  rewrite IH. destruct s; reflexivity.
Qed.

Lemma string_app_cons c (a b : string) : String c a ++ b = String c (a ++ b).
Proof. reflexivity. Qed.

Lemma string_app_assoc (a b c : string) : (a ++ b) ++ c = a ++ (b ++ c).
Proof.
  induction a as [|x a IH]; [reflexivity|].
  by rewrite !string_app_cons, IH.
Qed.

Lemma string_app_nil_r (a : string) : a ++ "" = a.
Proof.
  induction a as [|x a IH]; [reflexivity|].
  by rewrite string_app_cons, IH.
Qed.

(** Appending ["|"] after every sample and cutting the last character is
    joining the samples with ["|"]. *)
Lemma drop_last_terminated sep lines :
  lines <> [] ->
  drop_last (String.concat "" (map (fun l => l ++ String sep "") lines))
  = join (String sep "") lines.
Proof.
  intros Hne.
  assert (String.concat "" (map (fun l => l ++ String sep "") lines)
          = join (String sep "") lines ++ String sep "") as ->.
  { induction lines as [|l lines IH]; [done|].
    destruct lines as [|l' lines].
    - simpl. reflexivity.
    - change (String.concat "" (map (fun l => l ++ String sep "") (l :: l' :: lines)))
        with ((l ++ String sep "") ++ "" ++
              String.concat "" (map (fun l => l ++ String sep "") (l' :: lines))).
      rewrite IH by done.
      change (join (String sep "") (l :: l' :: lines))
        with (l ++ String sep "" ++ join (String sep "") (l' :: lines)).
      rewrite !string_app_assoc. reflexivity. }
  apply drop_last_app_char.
Qed.

(** What [strip] removes, and what it leaves. *)
Lemma all_in_app chars (a b : string) :
  all_in chars (a ++ b) = all_in chars a && all_in chars b.
Proof.
  induction a as [|c a IH]; [reflexivity|].
  rewrite string_app_cons. cbn [all_in]. by rewrite IH, andb_assoc.
Qed.

Lemma all_in_weaken chars chars' s :
  (forall c, mem_char c chars = true -> mem_char c chars' = true) ->
  all_in chars s = true -> all_in chars' s = true.
Proof.
  intros Hsub. induction s as [|c s IH]; [done|]. cbn [all_in].
  rewrite !andb_true_iff. intros [Hc Hs]. auto.
Qed.

Lemma lstrip_spec chars s :
  exists pre, s = pre ++ lstrip chars s /\ all_in chars pre = true /\
    forall c, first_char (lstrip chars s) = Some c -> mem_char c chars = false.
Proof.
  induction s as [|c s (pre & Hs & Hpre & Hfirst)].
  - exists "". by repeat split.
  - cbn [lstrip]. destruct (mem_char c chars) eqn:E.
    + exists (String c pre). rewrite string_app_cons, <- Hs.
      cbn [all_in]. rewrite E, Hpre. by repeat split.
    + exists "". repeat split. by intros d [= <-].
Qed.

Lemma rstrip_spec chars s :
  exists post, s = rstrip chars s ++ post /\ all_in chars post = true /\
    forall c, last_char (rstrip chars s) = Some c -> mem_char c chars = false.
Proof.
  induction s as [|c s (post & Hs & Hpost & Hlast)].
  - exists "". by repeat split.
  - cbn [rstrip]. destruct (rstrip chars s) as [|d kept] eqn:Er.
    + change ("" ++ post) with post in Hs. subst post.
      destruct (mem_char c chars) eqn:E.
      * exists (String c s). cbn [all_in]. rewrite E, Hpost. by repeat split.
      * exists s. repeat split; [done|]. by intros ? [= <-].
    + exists post. rewrite string_app_cons, <- Hs. repeat split; [done|].
      intros x Hx. apply Hlast. exact Hx.
Qed.

(** [s.strip(chars)] cuts a run of [chars] off each end of [s] and stops
    at the first character, from either end, that is not one of them. *)
Lemma strip_spec chars s :
  exists pre post,
    s = pre ++ strip chars s ++ post /\
    all_in chars pre = true /\ all_in chars post = true /\
    (forall c, first_char (strip chars s) = Some c -> mem_char c chars = false) /\
    (forall c, last_char (strip chars s) = Some c -> mem_char c chars = false).
Proof.
  destruct (lstrip_spec chars s) as (pre & Hs & Hpre & Hfirst).
  destruct (rstrip_spec chars (lstrip chars s)) as (post & Ht & Hpost & Hlast).
  exists pre, post. unfold strip. repeat split; try done.
  - by rewrite <- Ht.
  - intros c Hc. apply Hfirst. rewrite Ht.
    destruct (rstrip chars (lstrip chars s)); [done|exact Hc].
Qed.

End string_methods.

(** * Properties of the result monad *)

Section result_monad.
Context {A B : Type}.
Implicit Types (f : A -> result B) (l : list A) (k : list B).

Lemma bind_Ok {C D} (r : result C) (g : C -> result D) d :
  r ≫= g = Ok d <-> exists c, r = Ok c /\ g c = Ok d.
Proof.
  destruct r as [c|e]; simpl; split.
  - intros Hg. by exists c.
  - by intros (c' & [= <-] & Hg).
  - done.
  - by intros (c' & [=] & _).
Qed.

Lemma bind_Err {C D} (r : result C) (g : C -> result D) e :
  r ≫= g = Err e <-> r = Err e \/ exists c, r = Ok c /\ g c = Err e.
Proof.
  destruct r as [c|e']; simpl; split.
  - intros Hg. right. by exists c.
  - by intros [[=]|(c' & [= <-] & Hg)].
  - intros [= <-]. by left.
  - by intros [[= <-]|(c' & [=] & _)].
Qed.

Lemma mapM_nil f : mapM f [] = Ok [].
Proof. reflexivity. Qed.

Lemma mapM_cons f x l :
  mapM f (x :: l) = y ← f x; k ← mapM f l; Ok (y :: k).
Proof. reflexivity. Qed.

(** [mapM f l] succeeds exactly when [f] succeeds on every element, and
    then returns the results in order. *)
Lemma mapM_Ok f l k :
  mapM f l = Ok k <-> Forall2 (fun x y => f x = Ok y) l k.
Proof.
  revert k. induction l as [|x l IH]; intros k.
  - rewrite mapM_nil. split.
    + intros [= <-]. constructor.
    + by inversion 1.
  - rewrite mapM_cons, bind_Ok. split.
    + intros (y & Hy & Hk). apply bind_Ok in Hk as (k' & Hk' & [= <-]).
      constructor; [done|]. by apply IH.
    + inversion 1 as [|? y ? k' Hy Hk']; subst. exists y. split; [done|].
      apply IH in Hk'. by rewrite Hk'.
Qed.


Lemma mapM_is_ok f l :
  is_ok (mapM f l) = forallb (fun x => is_ok (f x)) l.
Proof.
  induction l as [|x l IH]; [reflexivity|].
  rewrite mapM_cons. simpl. destruct (f x) as [y|e]; simpl; [|done].
  rewrite <- IH. by destruct (mapM f l).
Qed.

End result_monad.

(** * The serving functions of train_and_deploy.py *)

Section serving.
Context `{Libraries}.
Import train_and_deploy.

(** The loop of [input_fn] appends, in order, the parsed rows. *)
Lemma input_rows_mapM rows samples :
  input_rows rows samples
  = (parsed ← mapM parse_row rows; Ok (samples ++ parsed)).
Proof.
  revert samples. induction rows as [|r rows IH]; intros samples.
  - simpl. by rewrite app_nil_r.
  - cbn [input_rows]. rewrite mapM_cons. fold (parse_row r).
    destruct (parse_row r) as [sample|e]; simpl; [|done].
    rewrite IH. destruct (mapM parse_row rows) as [parsed|e]; simpl; [|done].
    by rewrite <- app_assoc.
Qed.

(** Under ['text/csv'] the function parses every row and hands the rows
    to [np.array]. *)
Lemma input_fn_csv request_body :
  input_fn request_body "text/csv"
  = (samples ← mapM parse_row (split "|" request_body); np_array samples).
Proof.
  unfold input_fn. simpl. rewrite input_rows_mapM.
  by destruct (mapM parse_row (split "|" request_body)).
Qed.

(** An array [np.array] returns holds the rows it was given. *)
Lemma np_array_Ok samples array :
  np_array samples = Ok array -> tolist array = samples.
Proof.
  unfold np_array. destruct (rectangular samples); [by intros [= <-]|].
  destruct ragged_arrays; [|done]. by intros [= <-].
Qed.


Lemma input_fn_csv_Ok request_body array :
  input_fn request_body "text/csv" = Ok array ->
  mapM parse_row (split "|" request_body) = Ok (tolist array).
Proof.
  rewrite input_fn_csv. intros (rows & Hrows & Harray)%bind_Ok.
  by apply np_array_Ok in Harray as ->.
Qed.

Lemma parsed_rows_is_ok request_body :
  is_ok (mapM parse_row (split "|" request_body))
  = forallb (fun f => is_ok (float f)) (request_fields request_body).
Proof.
  unfold request_fields. rewrite mapM_is_ok.
  induction (split "|" request_body) as [|r rows IH]; [reflexivity|].
  simpl. rewrite forallb_app, <- IH. f_equal. apply mapM_is_ok.
Qed.

(** The function returns only if [float] accepts every field. *)
Lemma input_fn_csv_is_ok request_body :
  is_ok (input_fn request_body "text/csv") = true ->
  forallb (fun f => is_ok (float f)) (request_fields request_body) = true.
Proof.
  rewrite <- parsed_rows_is_ok, input_fn_csv.
  by destruct (mapM parse_row (split "|" request_body)).
Qed.


End serving.

(** * The request body built by serving_lambda.py *)

Section wire_format.
Context `{Libraries}.
Import serving_lambda.
Local Open Scope string_scope.

Lemma mem_char_app c (a b : string) :
  mem_char c (a ++ b) = mem_char c a || mem_char c b.
Proof.
  induction a as [|x a IH]; [reflexivity|].
  rewrite string_app_cons. simpl. rewrite IH. by rewrite orb_assoc.
Qed.

(** Joining fields that are free of [c] with another character gives a
    string free of [c]. *)
Lemma mem_char_join c sep fields :
  Ascii.eqb c sep = false ->
  Forall (fun f => mem_char c f = false) fields ->
  mem_char c (join (String sep "") fields) = false.
Proof.
  intros Hsep Hall. induction Hall as [|f fields Hf Hall IH]; [reflexivity|].
  destruct fields as [|g fields]; [done|].
  change (join (String sep "") (f :: g :: fields))
    with (f ++ String sep (join (String sep "") (g :: fields))).
  rewrite mem_char_app, Hf. cbn [mem_char orb]. by rewrite Hsep, IH.
Qed.

(** The loop of the handler on a payload that is a list of lists. *)
Lemma format_samples_lists (samples : list (list json)) body :
  format_samples (map JList samples) body
  = Ok (body ++ String.concat ""
                  (map (fun l => l ++ "|")
                       (map (fun sample => join "," (map str sample))
                            samples))).
Proof.
  revert body. induction samples as [|sample samples IH]; intros body.
  - simpl. by rewrite string_app_nil_r.
  - cbn [map format_samples iter]. simpl. rewrite IH. f_equal.
    rewrite !string_app_assoc. f_equal.
    destruct samples; simpl; [|done].
    by rewrite string_app_nil_r.
Qed.

(** The loop followed by [body[:-1]] is the wire format. *)
Lemma format_samples_wire_format (samples : list (list json)) :
  samples <> [] ->
  exists body,
    format_samples (map JList samples) "" = Ok body /\
    drop_last body = wire_format samples.
Proof.
  intros Hne. eexists. split; [apply format_samples_lists|].
  change ("" ++ ?s) with s. unfold wire_format.
  apply (drop_last_terminated "|"). by destruct samples.
Qed.

End wire_format.

(** * Claims about the serving input parser *)

Section input_fn_claims.
Context `{Libraries}.
Import train_and_deploy serving_lambda.
Local Open Scope string_scope.

(** C9: under content type ['text/csv'] the parser raises on the empty
    request body and whenever one of the fields delimited by [','] and
    ['|'] is not accepted by [float]; it returns an array only when every
    field is accepted, and the array then holds the parsed fields row by
    row.  That [float('')] raises is a fact of Python, assumed of the
    library. *)
Theorem input_fn_malformed_body :
  is_ok (float "") = false ->
  is_ok (input_fn "" "text/csv") = false /\
  (forall request_body,
     Exists (fun field => is_ok (float field) = false)
            (request_fields request_body) ->
     is_ok (input_fn request_body "text/csv") = false) /\
  (forall request_body samples,
     input_fn request_body "text/csv" = Ok samples ->
     Forall (fun field => is_ok (float field) = true)
            (request_fields request_body) /\
     Forall2 (Forall2 (fun field x => float field = Ok x))
             (map (split ",") (split "|" request_body)) samples).
Proof.
  intros Hempty. split; [|split].
  - apply not_true_is_false. intros Hall%input_fn_csv_is_ok.
    simpl in Hall. by rewrite Hempty in Hall.
  - intros request_body Hbad.
    apply not_true_is_false. intros Hall%input_fn_csv_is_ok.
    rewrite forallb_forall in Hall. apply Exists_exists in Hbad.
    destruct Hbad as (field & Hin & Hfield).
    apply list_elem_of_In, Hall in Hin. congruence.
  - intros request_body samples Hok. split.
    + apply Forall_forall. intros field Hin.
      pose proof (input_fn_csv_is_ok request_body) as Hall.
      rewrite Hok in Hall. specialize (Hall eq_refl).
      rewrite forallb_forall in Hall. by apply Hall, list_elem_of_In.
    + apply input_fn_csv_Ok, mapM_Ok in Hok.
      apply Forall2_fmap_l. eapply Forall2_impl; [exact Hok|].
      intros r sample Hrow. by apply mapM_Ok.
Qed.

(** C4: formatting a non-empty list of non-empty samples of floats the
    way the handler does, and parsing the result with [input_fn] under
    ['text/csv'], gives back an array that holds exactly the samples in
    their order: a two-dimensional array when the samples have one
    length, an array of the samples as lists when they have not.  That
    [float(str(x))] is [x] and that [str(x)] contains neither [','] nor
    ['|'] are facts of Python floats, assumed of the values at hand; that
    [np.array] accepts lists of different lengths is a fact of numpy
    before 1.24, which the scikit-learn 0.20.0 of the notebook runs on,
    and is asked for only where the samples differ in length. *)
Theorem wire_format_round_trip (samples : list (list pyfloat)) :
  samples <> [] ->
  Forall (fun sample => sample <> []) samples ->
  Forall (Forall (fun x =>
            float (str (JFloat x)) = Ok x /\
            mem_char "," (str (JFloat x)) = false /\
            mem_char "|" (str (JFloat x)) = false)) samples ->
  (rectangular samples = false -> ragged_arrays = true) ->
  exists body array,
    format_samples (map (fun sample => JList (map JFloat sample)) samples) ""
    = Ok body /\
    input_fn (drop_last body) "text/csv" = Ok array /\
    array = (if rectangular samples then Array2 samples
             else ArrayOfLists samples) /\
    tolist array = samples.
Proof.
  intros Hne Hrows Hfloat Hnumpy.
  destruct (format_samples_wire_format (map (map JFloat) samples))
    as (body & Hbody & Hwire).
  { by destruct samples. }
  exists body,
    (if rectangular samples then Array2 samples else ArrayOfLists samples).
  rewrite map_map in Hbody. split; [exact Hbody|].
  split; [|split; [done|by destruct (rectangular samples)]].
  rewrite Hwire, input_fn_csv. unfold wire_format.
  apply bind_Ok. exists samples. split.
  2:{ unfold np_array. destruct (rectangular samples); [done|].
      by rewrite Hnumpy. }
  rewrite split_join.
  - apply mapM_Ok, Forall2_fmap_l, Forall2_fmap_l, Forall_Forall2_diag.
    assert (Forall (fun sample => sample <> [] /\ Forall (fun x =>
              float (str (JFloat x)) = Ok x /\
              mem_char "," (str (JFloat x)) = false /\
              mem_char "|" (str (JFloat x)) = false) sample) samples) as Hboth.
    { clear -Hrows Hfloat. induction Hrows; inversion Hfloat; subst;
        constructor; auto. }
    eapply Forall_impl; [exact Hboth|].
    intros sample [Hsample Hvalues]. unfold parse_row, compose.
    rewrite split_join.
    + apply mapM_Ok, Forall2_fmap_l, Forall2_fmap_l, Forall_Forall2_diag.
      eapply Forall_impl; [exact Hvalues|]. by intros x (Hx & _).
    + by destruct sample.
    + rewrite !Forall_fmap. eapply Forall_impl; [exact Hvalues|].
      by intros x (_ & Hx & _).
  - by destruct samples.
  - rewrite !Forall_fmap. eapply Forall_impl; [exact Hfloat|].
    intros sample Hvalues. simpl. apply mem_char_join; [done|].
    rewrite !Forall_fmap. eapply Forall_impl; [exact Hvalues|].
    by intros x (_ & _ & Hx).
Qed.

End input_fn_claims.

(** * Running a script *)

(** Unfold the script monad down to pairs of a result and a world. *)
Ltac run_script :=
  cbv [mbind mret script_bind script_ret result_bind result_ret lift print
       read_file write_file raise] in *;
  cbn [files stdout sent fst snd] in *.

(** Case analysis on the file lookup or the library call the script
    waits for. *)
Ltac next_call :=
  match goal with
  | |- context [match ?r with Some _ => _ | None => _ end] =>
      let E := fresh "Hfile" in destruct r eqn:E
  | |- context [match ?r with Ok _ => _ | Err _ => _ end] =>
      let E := fresh "Hcall" in destruct r eqn:E
  end;
  cbn [files stdout sent fst snd] in *.

(** Use what a file lookup or a library call is known to answer. *)
Ltac answer H := rewrite H; cbn [files stdout sent fst snd].

(** * The handler of serving_lambda.py *)

Section lambda_handler.
Context `{Libraries}.
Import serving_lambda.
Local Open Scope string_scope.

(** A run of the handler whose event decodes to a payload. *)
Lemma lambda_handler_run endpoint_name event context w data payload
    samples body :
  json_loads (json_dumps None event) = Ok data ->
  (field ← getitem data "data"; loads field) = Ok payload ->
  iter payload = Ok samples ->
  format_samples samples "" = Ok body ->
  let req := csv_request endpoint_name (drop_last body) in
  lambda_handler endpoint_name event context w
  = (bytes ← endpoint req;
     decoded ← decode_utf8 bytes;
     Ok (strip "'" (strip "[]" decoded)),
     mkWorld (files w)
             (((stdout w ++ ["Received event: " +:+ json_dumps (Some 2) event])
               ++ [str payload])
              ++ ["request_body:  " +:+ drop_last body])%list
             (sent w ++ [req])%list).
Proof.
  intros Hdata Hpayload Hiter Hbody req.
  unfold lambda_handler, invoke_endpoint. run_script.
  rewrite Hdata, Hpayload, Hiter, Hbody. subst req. unfold csv_request.
  destruct (endpoint _) as [bytes|e]; [|done].
  by destruct (decode_utf8 bytes).
Qed.

(** A run that returns went through every step. *)
Lemma lambda_handler_Ok endpoint_name event context w label :
  fst (lambda_handler endpoint_name event context w) = Ok label ->
  exists data payload samples body,
    json_loads (json_dumps None event) = Ok data /\
    (field ← getitem data "data"; loads field) = Ok payload /\
    iter payload = Ok samples /\
    format_samples samples "" = Ok body.
Proof.
  unfold lambda_handler, invoke_endpoint. run_script. intros Hret.
  destruct (json_loads (json_dumps None event)) as [data|] eqn:Hdata;
    [|done].
  destruct (match getitem data "data" with Ok a => loads a | Err e => Err e end)
    as [payload|] eqn:Hpayload; [|done].
  destruct (iter payload) as [samples|] eqn:Hiter; [|done].
  destruct (format_samples samples "") as [body|] eqn:Hbody; [|done].
  by exists data, payload, samples, body.
Qed.

End lambda_handler.

(** * Claims about the handler *)

Section lambda_handler_claims.
Context `{Libraries}.
Import serving_lambda.
Local Open Scope string_scope.

(** C3: for an event whose ['data'] field is a JSON string that encodes a
    non-empty list of samples, each a list of numbers, the handler sends
    exactly one request; its content type is ['text/csv'] and its body is
    the values of each sample joined with [','] and the samples joined
    with ['|'], with no separator after the last sample.  That
    [json.loads(json.dumps(event))] is the event again is a fact of the
    json module, assumed of the event at hand. *)
Theorem lambda_handler_sends_wire_format endpoint_name event context w d
    text (samples : list (list number)) :
  event = JDict d ->
  d !! "data" = Some (JStr text) ->
  json_loads (json_dumps None event) = Ok event ->
  json_loads text
  = Ok (JList (map (fun sample => JList (map json_of_number sample))
                   samples)) ->
  samples <> [] ->
  sent (snd (lambda_handler endpoint_name event context w))
  = (sent w ++
     [mkRequest endpoint_name "text/csv"
        (join "|" (map (fun sample =>
                          join "," (map (fun n => str (json_of_number n))
                                        sample))
                       samples))])%list.
Proof.
  intros -> Hfield Hround Htext Hne.
  destruct (format_samples_wire_format (map (map json_of_number) samples))
    as (body & Hbody & Hwire).
  { by destruct samples. }
  rewrite (lambda_handler_run _ _ _ _ (JDict d)
             (JList (map JList (map (map json_of_number) samples)))
             (map JList (map (map json_of_number) samples)) body);
    try done.
  - simpl. rewrite Hwire. unfold csv_request, wire_format.
    rewrite map_map. do 4 f_equal. apply map_ext. intros sample.
    by rewrite map_map.
  - simpl. rewrite Hfield. simpl. by rewrite Htext, !map_map.
Qed.

(** C2, as the code has it: the value the handler returns is the decoded
    response body of the one request it sent, with the brackets at its
    two ends and then the single quotes at its two ends stripped; nothing
    inside is changed. *)
Theorem lambda_handler_returns_stripped_label endpoint_name event context
    w label :
  fst (lambda_handler endpoint_name event context w) = Ok label ->
  exists body bytes decoded,
    sent (snd (lambda_handler endpoint_name event context w))
    = (sent w ++ [mkRequest endpoint_name "text/csv" body])%list /\
    endpoint (mkRequest endpoint_name "text/csv" body) = Ok bytes /\
    decode_utf8 bytes = Ok decoded /\
    label = strip "'" (strip "[]" decoded) /\
    exists pre post,
      decoded = pre ++ label ++ post /\
      all_in "[]'" pre = true /\ all_in "[]'" post = true.
Proof.
  intros Hret.
  destruct (lambda_handler_Ok _ _ _ _ _ Hret)
    as (data & payload & samples & body & Hdata & Hpayload & Hiter & Hbody).
  rewrite (lambda_handler_run _ _ _ _ _ _ _ _ Hdata Hpayload Hiter Hbody)
    in Hret |- *.
  unfold csv_request in *. cbn [fst snd sent] in *.
  exists (drop_last body).
  destruct (endpoint _) as [bytes|] eqn:Hbytes; [|by simpl in Hret].
  simpl in Hret.
  destruct (decode_utf8 bytes) as [decoded|] eqn:Hdecoded; [|by simpl in Hret].
  simpl in Hret. injection Hret as <-.
  exists bytes, decoded. repeat split; try done.
  destruct (strip_spec "[]" decoded) as (p1 & q1 & H1 & Hp1 & Hq1 & _).
  destruct (strip_spec "'" (strip "[]" decoded))
    as (p2 & q2 & H2 & Hp2 & Hq2 & _).
  exists (p1 ++ p2), (q2 ++ q1). split; [|split].
  - rewrite H1 at 1. rewrite H2 at 1. by rewrite !string_app_assoc.
  - rewrite all_in_app. apply andb_true_iff. split.
    + eapply all_in_weaken; [|exact Hp1]. by intros c; simpl; destruct (Ascii.eqb c "["), (Ascii.eqb c "]").
    + eapply all_in_weaken; [|exact Hp2]. intros c; simpl. destruct (Ascii.eqb c "'"); [|done]. by rewrite !orb_true_r.
  - rewrite all_in_app. apply andb_true_iff. split.
    + eapply all_in_weaken; [|exact Hq2]. intros c; simpl. destruct (Ascii.eqb c "'"); [|done]. by rewrite !orb_true_r.
    + eapply all_in_weaken; [|exact Hq1]. by intros c; simpl; destruct (Ascii.eqb c "["), (Ascii.eqb c "]").
Qed.

End lambda_handler_claims.

(** * The training job of train_and_deploy.py *)

Section training.
Context `{Libraries}.
Import train_and_deploy.
Local Open Scope string_scope.

Lemma training_paths :
  path_join "/opt/ml/input/data/train" "train_features.csv"
  = "/opt/ml/input/data/train/train_features.csv" /\
  path_join "/opt/ml/input/data/train" "train_labels.csv"
  = "/opt/ml/input/data/train/train_labels.csv" /\
  path_join "/opt/ml/model" "model.joblib" = "/opt/ml/model/model.joblib".
Proof. by repeat split. Qed.

(** Whatever happens, the training job touches no file but the model
    artifact, and a job that fails has written nothing. *)
Lemma training_frame w :
  (forall path, path <> "/opt/ml/model/model.joblib" ->
                files (snd (main w)) !! path = files w !! path) /\
  (forall e, fst (main w) = Err e -> files (snd (main w)) = files w).
Proof.
  unfold main, pd.read_csv, joblib.dump.
  destruct training_paths as (-> & -> & ->). run_script.
  repeat next_call; split; try done.
  intros path Hpath. by rewrite lookup_insert_ne.
Qed.

(** C7: when the two training files are there and the library reads them
    and fits, the job fits a logistic regression with
    [class_weight='balanced'] and the [lbfgs] solver on the features and
    labels read, and writes the dump of exactly that model to
    [/opt/ml/model/model.joblib]; no other file is written or changed. *)
Theorem training_writes_one_model w features_csv labels_csv X_train y_train
    model :
  files w !! "/opt/ml/input/data/train/train_features.csv"
  = Some features_csv ->
  files w !! "/opt/ml/input/data/train/train_labels.csv" = Some labels_csv ->
  parse_csv HeaderNone features_csv = Ok X_train ->
  parse_csv HeaderNone labels_csv = Ok y_train ->
  fit (mkLogisticRegression "balanced" "lbfgs")
      (OfFrame X_train) (OfFrame y_train) = Ok model ->
  fst (main w) = Ok tt /\
  files (snd (main w))
  = <["/opt/ml/model/model.joblib" := joblib_dumps model]> (files w) /\
  (forall path, path <> "/opt/ml/model/model.joblib" ->
                files (snd (main w)) !! path = files w !! path).
Proof.
  intros HX Hy HparseX Hparsey Hfit.
  split; [|split]; [| |apply training_frame].
  all: unfold main, pd.read_csv, joblib.dump;
    destruct training_paths as (-> & -> & ->); run_script;
    by rewrite HX, HparseX, Hy, Hparsey, Hfit.
Qed.

End training.

(** * The evaluation job of evaluate.py *)

Section evaluation.
Context `{Libraries}.
Import evaluate.
Local Open Scope string_scope.

Lemma evaluation_paths :
  path_join "/opt/ml/processing/model" "model.tar.gz"
  = "/opt/ml/processing/model/model.tar.gz" /\
  path_join "/opt/ml/processing/test" "test_features.csv"
  = "/opt/ml/processing/test/test_features.csv" /\
  path_join "/opt/ml/processing/test" "test_labels.csv"
  = "/opt/ml/processing/test/test_labels.csv" /\
  path_join "/opt/ml/processing/evaluation" "evaluation.json"
  = "/opt/ml/processing/evaluation/evaluation.json".
Proof. by repeat split. Qed.

(** C6: when the model archive unpacks, the model loads, the two test
    files are read and the library predicts and scores, the job writes
    one file, [/opt/ml/processing/evaluation/evaluation.json]; it holds
    the JSON text of the classification report of the model's predictions
    against the test labels in which the key ['accuracy'] is set to the
    accuracy score of the same predictions and every other key is as the
    report has it.  No other file differs from what unpacking the archive
    left. *)
Theorem evaluation_writes_metrics w archive unpacked model_bytes model
    features_csv labels_csv X_test y_test predictions report accuracy :
  files w !! "/opt/ml/processing/model/model.tar.gz" = Some archive ->
  tar_extractall archive "." (files w) = Ok unpacked ->
  unpacked !! "model.joblib" = Some model_bytes ->
  joblib_loads model_bytes = Ok model ->
  unpacked !! "/opt/ml/processing/test/test_features.csv"
  = Some features_csv ->
  unpacked !! "/opt/ml/processing/test/test_labels.csv" = Some labels_csv ->
  parse_csv HeaderNone features_csv = Ok X_test ->
  parse_csv HeaderNone labels_csv = Ok y_test ->
  predict model (OfFrame X_test) = Ok predictions ->
  classification_report (OfFrame y_test) (OfVector predictions) true
  = Ok report ->
  accuracy_score (OfFrame y_test) (OfVector predictions) = Ok accuracy ->
  exists metrics : gmap string json,
    fst (main w) = Ok tt /\
    files (snd (main w))
    = <["/opt/ml/processing/evaluation/evaluation.json" :=
          json_dumps None (JDict metrics)]> unpacked /\
    metrics !! "accuracy" = Some (JFloat accuracy) /\
    (forall key, key <> "accuracy" -> metrics !! key = report !! key) /\
    (forall path, path <> "/opt/ml/processing/evaluation/evaluation.json" ->
                  files (snd (main w)) !! path = unpacked !! path).
Proof.
  intros Harchive Hunpack Hbytes Hload HX Hy HparseX Hparsey Hpredict
    Hreport Haccuracy.
  exists (<["accuracy" := JFloat accuracy]> report).
  assert (main w
          = (Ok tt,
             mkWorld
               (<["/opt/ml/processing/evaluation/evaluation.json" :=
                    json_dumps None
                      (JDict (<["accuracy" := JFloat accuracy]> report))]>
                  unpacked)
               (stdout (snd (main w))) (sent w))) as Hrun.
  { unfold main, extractall, joblib.load, pd.read_csv.
    destruct evaluation_paths as (-> & -> & -> & ->). run_script.
    by repeat (answer Harchive || answer Hunpack || answer Hbytes ||
               answer Hload || answer HX || answer HparseX || answer Hy ||
               answer Hparsey || answer Hpredict || answer Hreport ||
               answer Haccuracy). }
  rewrite Hrun. cbn [fst snd files]. repeat split.
  - apply lookup_insert_eq.
  - intros key Hkey. by apply lookup_insert_ne.
  - intros path Hpath. by apply lookup_insert_ne.
Qed.

End evaluation.

(** * Cleaning the data in preprocessing.py *)

Section cleaning.
Import preprocessing.

Implicit Types (row : list cell) (rows seen : list (list cell)).

(** [first_occurrences] drops rows and keeps the order of the others. *)
Lemma first_occurrences_sublist seen rows :
  sublist (pd.first_occurrences seen rows) rows.
Proof.
  revert seen. induction rows as [|r rows IH]; intros seen; simpl.
  - constructor.
  - destruct (existsb (pd.row_eqb r) seen).
    + by apply sublist_cons.
    + by apply sublist_skip.
Qed.

(** No row that is kept equals a row seen before or kept before. *)
Lemma first_occurrences_distinct seen rows :
  Forall (fun r => existsb (pd.row_eqb r) seen = false)
         (pd.first_occurrences seen rows) /\
  pairwise_distinct (pd.first_occurrences seen rows).
Proof.
  unfold pairwise_distinct.
  revert seen. induction rows as [|r rows IH]; intros seen; simpl.
  - split; constructor.
  - destruct (existsb (pd.row_eqb r) seen) eqn:Hseen; [apply IH|].
    destruct (IH (r :: seen)) as [Hnew Hpairs]. split.
    + constructor; [done|]. eapply Forall_impl; [exact Hnew|].
      intros r' Hr'. simpl in Hr'. by apply orb_false_iff in Hr' as [_ ?].
    + constructor; [|done]. eapply Forall_impl; [exact Hnew|].
      intros r' Hr'. simpl in Hr'. by apply orb_false_iff in Hr' as [? _].
Qed.

(** Every row is kept, or equals a row seen or kept. *)
Lemma first_occurrences_cover seen rows r :
  r ∈ rows ->
  exists s, (s ∈ seen \/ s ∈ pd.first_occurrences seen rows) /\
            (r = s \/ pd.row_eqb r s = true).
Proof.
  revert seen. induction rows as [|r0 rows IH]; intros seen Hin.
  - by apply elem_of_nil in Hin.
  - simpl. apply elem_of_cons in Hin as [->|Hin].
    + destruct (existsb (pd.row_eqb r0) seen) eqn:Hseen.
      * apply existsb_exists in Hseen as (s & Hs & Heq).
        exists s. split; [left; by apply list_elem_of_In|by right].
      * exists r0. split; [right; apply elem_of_cons; by left|by left].
    + destruct (existsb (pd.row_eqb r0) seen) eqn:Hseen; [by apply IH|].
      destruct (IH (r0 :: seen) Hin) as (s & Hs & Heq).
      exists s. split; [|done]. rewrite elem_of_cons.
      destruct Hs as [Hs|Hs]; [|tauto].
      apply elem_of_cons in Hs as [->|Hs]; tauto.
Qed.

(** The columns of the cleaned frame are the six selected ones, and each
    of its rows has six cells. *)
Lemma cleaned_columns raw : df_columns (cleaned raw) = map Name columns.
Proof. reflexivity. Qed.

Lemma cleaned_rows_sublist raw :
  sublist (df_rows (cleaned raw))
          (filter (fun row => pd.complete row = true)
                  (df_rows (pd.reindex_columns raw columns))).
Proof. apply first_occurrences_sublist. Qed.

Lemma cleaned_rows_length raw :
  Forall (fun row => length row = 6) (df_rows (cleaned raw)).
Proof.
  apply Forall_forall. intros row Hin.
  eapply elem_of_sublist in Hin; [|apply cleaned_rows_sublist].
  apply list_elem_of_filter in Hin as [_ Hrow].
  simpl in Hrow. apply list_elem_of_fmap in Hrow as (raw_row & -> & _).
  reflexivity.
Qed.

(** [df.drop(columns='sex')] and [df['sex']] on the cleaned frame. *)
Lemma drop_target raw :
  pd.drop (cleaned raw) target = Ok (feature_frame (cleaned raw)).
Proof.
  unfold pd.drop, feature_frame. rewrite cleaned_columns.
  change (pd.column_index (Name target) (map Name columns)) with (Some 5).
  f_equal. f_equal. apply Forall_fmap_ext.
  eapply Forall_impl; [apply cleaned_rows_length|].
  intros row Hrow. by do 7 (destruct row as [|? row]; try done).
Qed.

Lemma getitem_target raw :
  pd.getitem (cleaned raw) target = Ok (label_series (cleaned raw)).
Proof. reflexivity. Qed.

End cleaning.

(** * How the split partitions its input *)

Section splitting.
Import preprocessing.

Lemma lookup_combine {A B} (l : list A) (k : list B) i :
  combine l k !! i
  = match l !! i, k !! i with
    | Some a, Some b => Some (a, b)
    | _, _ => None
    end.
Proof.
  revert k i. induction l as [|a l IH]; intros [|b k] [|i]; try done.
  - simpl. by destruct (l !! i).
  - apply (IH k i).
Qed.

(** Taking rows of the features and of the labels at the same positions
    is taking rows of the features paired with their labels. *)
Lemma take_rows_combine {A B} (l : list A) (k : list B) indices :
  length l = length k ->
  combine (sklearn.take_rows l indices) (sklearn.take_rows k indices)
  = sklearn.take_rows (combine l k) indices /\
  length (sklearn.take_rows l indices)
  = length (sklearn.take_rows k indices).
Proof.
  intros Hlen. unfold sklearn.take_rows.
  induction indices as [|i indices [IH IHlen]]; [done|].
  simpl. rewrite (lookup_combine l k i).
  destruct (l !! i) as [a|] eqn:Hl, (k !! i) as [b|] eqn:Hk.
  - split; simpl; f_equal; [exact IH|exact IHlen].
  - apply lookup_lt_Some in Hl. apply lookup_ge_None in Hk. lia.
  - apply lookup_lt_Some in Hk. apply lookup_ge_None in Hl. lia.
  - split; [exact IH|exact IHlen].
Qed.

(** Taking the rows at every position in turn gives the rows. *)
Lemma take_rows_seq {A} (before l : list A) :
  sklearn.take_rows (before ++ l) (seq (length before) (length l)) = l.
Proof.
  unfold sklearn.take_rows. revert before.
  induction l as [|a l IH]; intros before; [done|].
  simpl. rewrite (list_lookup_middle before l a) by done. f_equal.
  specialize (IH (before ++ [a])).
  rewrite length_app, <- app_assoc in IH. simpl in IH.
  by rewrite Nat.add_1_r in IH.
Qed.

(** Taking the rows at the positions of a permutation gives the rows in
    another order. *)
Lemma take_rows_permutation {A} (l : list A) indices :
  indices ≡ₚ seq 0 (length l) -> sklearn.take_rows l indices ≡ₚ l.
Proof.
  intros Hperm. unfold sklearn.take_rows. rewrite Hperm.
  apply Permutation_refl'. apply (take_rows_seq [] l).
Qed.

(** The split of scikit-learn partitions its input: it asks for as many
    labels as rows, and its train and test outputs, rows with labels, are
    the input rows with their labels in another order. *)
Lemma shuffle_split_partitions permutation n_test X y out :
  permutation ≡ₚ seq 0 (length (df_rows X)) ->
  sklearn.shuffle_split permutation n_test X y = Ok out ->
  length (df_rows X) = length (s_values y) /\ partitions X y out.
Proof.
  intros Hperm. unfold sklearn.shuffle_split.
  destruct (Nat.eqb_spec (length (df_rows X)) (length (s_values y)))
    as [Hlen|]; [|done].
  simpl. intros [= <-]. split; [done|]. unfold partitions.
  cbn [df_rows s_values].
  destruct (take_rows_combine (df_rows X) (s_values y)
              (drop n_test permutation) Hlen) as [-> Htrain].
  destruct (take_rows_combine (df_rows X) (s_values y)
              (take n_test permutation) Hlen) as [-> Htest].
  split; [done|]. split; [done|].
  unfold sklearn.take_rows at 1 2. rewrite <- omap_app.
  fold (sklearn.take_rows (combine (df_rows X) (s_values y))
          (drop n_test permutation ++ take n_test permutation)).
  apply take_rows_permutation.
  rewrite length_combine, <- Hlen, Nat.min_id, <- Hperm.
  rewrite Permutation_app_comm. by rewrite take_drop.
Qed.

End splitting.

(** * The preprocessing job of preprocessing.py *)

Section preprocessing_job.
Context `{Libraries}.
Import preprocessing.
Local Open Scope string_scope.

Lemma preprocessing_paths :
  path_join "/opt/ml/processing/input" "penguins.csv"
  = "/opt/ml/processing/input/penguins.csv" /\
  path_join "/opt/ml/processing/train" "train_features.csv"
  = "/opt/ml/processing/train/train_features.csv" /\
  path_join "/opt/ml/processing/train" "train_labels.csv"
  = "/opt/ml/processing/train/train_labels.csv" /\
  path_join "/opt/ml/processing/test" "test_features.csv"
  = "/opt/ml/processing/test/test_features.csv" /\
  path_join "/opt/ml/processing/test" "test_labels.csv"
  = "/opt/ml/processing/test/test_labels.csv".
Proof. by repeat split. Qed.

(** A run in which every library call answers. *)
Lemma preprocessing_run argv w args rest split text raw X X_train X_test
    y_train y_test :
  parse_known_args [mkArgument "--train-test-split" float_0_3] argv
  = Ok (args, rest) ->
  args !! "train_test_split" = Some split ->
  files w !! "/opt/ml/processing/input/penguins.csv" = Some text ->
  parse_csv HeaderInfer text = Ok raw ->
  fit_transform pipeline (feature_frame (cleaned raw)) = Ok X ->
  train_test_split (pd.DataFrame_of_matrix X) (label_series (cleaned raw))
                   split 42
  = Ok (X_train, X_test, y_train, y_test) ->
  fst (main argv w) = Ok tt /\
  files (snd (main argv w))
  = written (files w) X_train X_test y_train y_test.
Proof.
  intros Hargs Hsplit Htext Hraw HX Hout.
  unfold main, getattr, pd.read_csv, pd.DataFrame_to_csv, pd.Series_to_csv,
    make_column_transformer.
  destruct preprocessing_paths as (-> & -> & -> & -> & ->). run_script.
  answer Hargs. answer Hsplit. answer Htext. answer Hraw.
  change (pd.drop_duplicates (pd.dropna (pd.reindex_columns raw columns)))
    with (cleaned raw).
  rewrite drop_target, getitem_target. fold pipeline.
  answer HX. answer Hout. done.
Qed.

(** The four writes come last: a run that raises has written nothing. *)
Lemma preprocessing_failure_writes_nothing argv w e :
  fst (main argv w) = Err e -> files (snd (main argv w)) = files w.
Proof.
  unfold main, getattr, pd.read_csv, pd.DataFrame_to_csv, pd.Series_to_csv,
    make_column_transformer.
  destruct preprocessing_paths as (-> & -> & -> & -> & ->). run_script.
  destruct (parse_known_args _ argv) as [[args rest]|]; [|done].
  destruct (args !! "train_test_split"); cbn [files stdout sent fst snd];
    [|done].
  destruct (files w !! _); cbn [files stdout sent fst snd]; [|done].
  destruct (parse_csv HeaderInfer _) as [raw|];
    cbn [files stdout sent fst snd]; [|done].
  change (pd.drop_duplicates (pd.dropna (pd.reindex_columns raw columns)))
    with (cleaned raw).
  rewrite drop_target, getitem_target.
  destruct (fit_transform _ _); cbn [files stdout sent fst snd]; [|done].
  destruct (train_test_split _ _ _ _) as [[[[? ?] ?] ?]|];
    cbn [files stdout sent fst snd]; done.
Qed.

(** C5: when the library calls answer, the job applies the column
    transformer that standard-scales the three numeric features and
    one-hot-encodes ['species'] and ['island'] to the feature columns of
    the cleaned data, splits the transformed features and the ['sex']
    labels with the test size taken from [--train-test-split] (declared
    with default [0.3]) and [random_state=42], and writes four files
    with [header=False] and [index=False]: train features, test
    features, train labels, test labels.  No other file is written or
    changed. *)
Theorem preprocessing_writes_four_files argv w args rest split text raw X
    X_train X_test y_train y_test :
  parse_known_args [mkArgument "--train-test-split" float_0_3] argv
  = Ok (args, rest) ->
  args !! "train_test_split" = Some split ->
  files w !! "/opt/ml/processing/input/penguins.csv" = Some text ->
  parse_csv HeaderInfer text = Ok raw ->
  fit_transform
    [ (["bill_length_mm"; "bill_depth_mm"; "flipper_length_mm"],
       StandardScaler);
      (["species"; "island"], OneHotEncoder false) ]
    (feature_frame (cleaned raw)) = Ok X ->
  train_test_split (pd.DataFrame_of_matrix X) (label_series (cleaned raw))
                   split 42
  = Ok (X_train, X_test, y_train, y_test) ->
  let fs := files (snd (main argv w)) in
  fst (main argv w) = Ok tt /\
  fs !! "/opt/ml/processing/train/train_features.csv"
  = Some (frame_to_csv X_train false false) /\
  fs !! "/opt/ml/processing/test/test_features.csv"
  = Some (frame_to_csv X_test false false) /\
  fs !! "/opt/ml/processing/train/train_labels.csv"
  = Some (series_to_csv y_train false false) /\
  fs !! "/opt/ml/processing/test/test_labels.csv"
  = Some (series_to_csv y_test false false) /\
  (forall path,
     path ∉ [ "/opt/ml/processing/train/train_features.csv";
              "/opt/ml/processing/test/test_features.csv";
              "/opt/ml/processing/train/train_labels.csv";
              "/opt/ml/processing/test/test_labels.csv" ] ->
     fs !! path = files w !! path).
Proof.
  intros Hargs Hsplit Htext Hraw HX Hout fs.
  destruct (preprocessing_run _ _ _ _ _ _ _ _ _ _ _ _
              Hargs Hsplit Htext Hraw HX Hout) as [Hret Hfiles].
  subst fs. rewrite Hfiles. unfold written.
  split; [done|]. repeat split.
  1-4: by simplify_map_eq.
  intros path Hpath. rewrite !not_elem_of_cons in Hpath.
  destruct Hpath as (? & ? & ? & ? & _).
  by rewrite !lookup_insert_ne.
Qed.

(** C8: the job cleans before it transforms and splits.  The cleaned
    rows are rows of the six selected columns, in their order, none with a
    missing value and no two equal; every complete row of the selection
    is one of them or equals one of them.  The transformer and the split
    are given the cleaned rows and their own labels.  The split being
    scikit-learn's, which takes the rows at the first [n_test] positions
    of a permutation for the test set and the rows at the other positions
    for the train set, the train and test outputs with their labels are
    the transformed cleaned rows with their own labels in some order, so
    each cleaned row is in exactly one of the two sets, and the two row
    counts add up to the number of cleaned rows. *)
Theorem preprocessing_partitions_cleaned_rows argv w args rest split text
    raw X X_train X_test y_train y_test permutation n_test :
  parse_known_args [mkArgument "--train-test-split" float_0_3] argv
  = Ok (args, rest) ->
  args !! "train_test_split" = Some split ->
  files w !! "/opt/ml/processing/input/penguins.csv" = Some text ->
  parse_csv HeaderInfer text = Ok raw ->
  fit_transform pipeline (feature_frame (cleaned raw)) = Ok X ->
  train_test_split (pd.DataFrame_of_matrix X) (label_series (cleaned raw))
                   split 42
  = Ok (X_train, X_test, y_train, y_test) ->
  permutation ≡ₚ seq 0 (length X) ->
  train_test_split (pd.DataFrame_of_matrix X) (label_series (cleaned raw))
                   split 42
  = sklearn.shuffle_split permutation n_test
      (pd.DataFrame_of_matrix X) (label_series (cleaned raw)) ->
  let selected := df_rows (pd.reindex_columns raw columns) in
  let clean := df_rows (cleaned raw) in
  sublist clean selected /\
  Forall (fun row => pd.complete row = true) clean /\
  pairwise_distinct clean /\
  (forall row, row ∈ selected -> pd.complete row = true ->
     exists kept, kept ∈ clean /\ (row = kept \/ pd.row_eqb row kept = true)) /\
  fst (main argv w) = Ok tt /\
  files (snd (main argv w))
  = written (files w) X_train X_test y_train y_test /\
  Permutation
    (combine (df_rows X_train) (s_values y_train)
     ++ combine (df_rows X_test) (s_values y_test))%list
    (combine (map (map Num) X)
             (map (fun row => nth 5 row (Num pd.nan)) clean)) /\
  length (df_rows X_train) + length (df_rows X_test) = length clean.
Proof.
  intros Hargs Hsplit Htext Hraw HX Hout Hpermutation Hsklearn
    selected clean.
  pose proof (cleaned_rows_sublist raw) as Hsub.
  split; [|split; [|split; [|split]]].
  - etrans; [exact Hsub|]. apply sublist_filter.
  - apply Forall_forall. intros row Hin.
    eapply elem_of_sublist in Hin; [|exact Hsub].
    by apply list_elem_of_filter in Hin as [? _].
  - apply (first_occurrences_distinct []).
  - intros row Hin Hcomplete.
    destruct (first_occurrences_cover []
                (filter (fun row => pd.complete row = true) selected) row)
      as (kept & [Hkept|Hkept] & Heq).
    + by apply list_elem_of_filter.
    + by apply elem_of_nil in Hkept.
    + by exists kept.
  - destruct (preprocessing_run _ _ _ _ _ _ _ _ _ _ _ _
                Hargs Hsplit Htext Hraw HX Hout) as [Hret Hfiles].
    split; [done|]. split; [done|].
    rewrite Hsklearn in Hout.
    apply shuffle_split_partitions in Hout
      as (Hrows & Htrain & Htest & Hperm).
    2:{ cbn [df_rows pd.DataFrame_of_matrix]. by rewrite length_map. }
    cbn [df_rows s_values pd.DataFrame_of_matrix label_series] in Hrows, Hperm.
    split; [exact Hperm|].
    apply Permutation_length in Hperm.
    rewrite length_app, !length_combine in Hperm.
    rewrite !length_map in Hperm, Hrows. subst clean. lia.
Qed.

End preprocessing_job.

(** * Validation in the scripts *)

Section validation.
Context `{Libraries}.
Local Open Scope string_scope.

(** What [pd.read_csv] returns depends on the files alone. *)
Lemma read_csv_result path h w :
  fst (pd.read_csv path h w)
  = match files w !! path with
    | Some text => parse_csv h text
    | None => raise "FileNotFoundError" path
    end.
Proof. unfold pd.read_csv. run_script. by destruct (files w !! path). Qed.

(** What the preprocessing job returns is what its library calls return,
    one after the other: the script adds nothing to them. *)
Lemma preprocessing_result argv w :
  fst (preprocessing.main argv w)
  = ('(args, _) ← parse_known_args jobs.parser argv;
     split ← preprocessing.getattr args "train_test_split";
     raw ← fst (pd.read_csv jobs.input_data_path HeaderInfer w);
     X ← (inputs ← pd.drop (preprocessing.cleaned raw) preprocessing.target;
          fit_transform preprocessing.pipeline inputs);
     _ ← (labels ← pd.getitem (preprocessing.cleaned raw)
                               preprocessing.target;
          train_test_split (pd.DataFrame_of_matrix X) labels split 42);
     Ok tt).
Proof.
  rewrite read_csv_result.
  unfold preprocessing.main, preprocessing.getattr, pd.read_csv,
    pd.DataFrame_to_csv, pd.Series_to_csv,
    preprocessing.make_column_transformer, jobs.parser,
    jobs.input_data_path.
  destruct preprocessing_paths as (-> & -> & -> & -> & ->). run_script.
  destruct (parse_known_args _ argv) as [[args rest]|]; [|done].
  destruct (args !! "train_test_split"); cbn [files stdout sent fst snd];
    [|done].
  destruct (files w !! _); cbn [files stdout sent fst snd]; [|done].
  destruct (parse_csv HeaderInfer _) as [raw|];
    cbn [files stdout sent fst snd]; [|done].
  change (pd.drop_duplicates
            (pd.dropna (pd.reindex_columns raw preprocessing.columns)))
    with (preprocessing.cleaned raw).
  rewrite drop_target, getitem_target. fold preprocessing.pipeline.
  destruct (fit_transform _ _); cbn [files stdout sent fst snd]; [|done].
  destruct (train_test_split _ _ _ _) as [[[[? ?] ?] ?]|];
    cbn [files stdout sent fst snd]; done.
Qed.

(** The preprocessing job raises exactly when one of its library calls
    raises, and then that call's exception. *)
Lemma preprocessing_raises argv w e :
  fst (preprocessing.main argv w) = Err e
  <-> jobs.preprocessing_call_raises argv w e.
Proof.
  rewrite preprocessing_result. split.
  - intros [Hargs|([args rest] & Hargs & Hrun)]%bind_Err;
      [by eapply jobs.parse_known_args_raises|].
    apply bind_Err in Hrun as [Hsplit|(split & Hsplit & Hrun)];
      [by eapply jobs.getattr_raises|].
    apply bind_Err in Hrun as [Hraw|(raw & Hraw & Hrun)];
      [by eapply jobs.read_csv_raises|].
    apply bind_Err in Hrun as [HX|(X & HX & Hrun)];
      [by eapply jobs.fit_transform_raises|].
    apply bind_Err in Hrun as [Hout|(out & Hout & [=])].
    by eapply jobs.train_test_split_raises.
  - by intros [e' Hargs|args rest e' Hargs Hsplit
              |args rest split e' Hargs Hsplit Hraw
              |args rest split raw e' Hargs Hsplit Hraw HX
              |args rest split raw X e' Hargs Hsplit Hraw HX Hout];
      rewrite Hargs; cbn [mbind result_bind];
      rewrite ?Hsplit; cbn [mbind result_bind];
      rewrite ?Hraw; cbn [mbind result_bind];
      rewrite ?HX; cbn [mbind result_bind];
      rewrite ?Hout.
Qed.




End validation.

(** * The scripts on concrete inputs *)

Section runs.
Import sample.
Local Open Scope string_scope.



(** C2 fails on the code: the endpoint answers [['male']] and the
    handler returns [male]. *)
Lemma lambda_handler_changes_response :
  let req := mkRequest "penguins" "text/csv" "1.5,2|0.5" in
  sent (snd (serving_lambda.lambda_handler "penguins" event JNull
               empty_world)) = [req] /\
  (bytes ← endpoint req; decode_utf8 bytes) = Ok "['male']" /\
  fst (serving_lambda.lambda_handler "penguins" event JNull empty_world)
  = Ok "male" /\
  "male" <> "['male']".
Proof. repeat split; try reflexivity. discriminate. Qed.

Lemma lambda_handler_returns_stripped_label_witness :
  exists body bytes decoded,
    sent (snd (serving_lambda.lambda_handler "penguins" event JNull
                 empty_world))
    = ([] ++ [mkRequest "penguins" "text/csv" body])%list /\
    endpoint (mkRequest "penguins" "text/csv" body) = Ok bytes /\
    decode_utf8 bytes = Ok decoded /\
    "male" = strip "'" (strip "[]" decoded) /\
    exists pre post,
      decoded = pre ++ "male" ++ post /\
      all_in "[]'" pre = true /\ all_in "[]'" post = true.
Proof.
  apply (lambda_handler_returns_stripped_label
           "penguins" event JNull empty_world "male").
  reflexivity.
Defined.

Lemma lambda_handler_sends_wire_format_witness :
  sent (snd (serving_lambda.lambda_handler "penguins" event JNull
               empty_world))
  = [mkRequest "penguins" "text/csv" "1.5,2|0.5"].
Proof.
  exact (lambda_handler_sends_wire_format
           "penguins" event JNull empty_world
           {[ "data" := JStr "[[1.5, 2], [0.5]]" ]} "[[1.5, 2], [0.5]]"
           [[NFloat f_1_5; NInt 2]; [NFloat f_0_5]]
           eq_refl eq_refl eq_refl eq_refl ltac:(discriminate)).
Defined.

Lemma input_fn_malformed_body_witness :
  is_ok (train_and_deploy.input_fn "" "text/csv") = false /\
  is_ok (train_and_deploy.input_fn "1.5,abc|2.0" "text/csv") = false.
Proof.
  destruct (input_fn_malformed_body (H := libraries) eq_refl)
    as (Hempty & Hbad & _).
  split; [exact Hempty|]. apply Hbad.
  apply Exists_cons_tl, Exists_cons_hd. reflexivity.
Defined.

Lemma wire_format_round_trip_witness :
  exists body array,
    serving_lambda.format_samples
      (map (fun sample => JList (map JFloat sample))
           [[f_1_5; f_2_0]; [f_0_5]]) "" = Ok body /\
    train_and_deploy.input_fn (drop_last body) "text/csv" = Ok array /\
    array = ArrayOfLists [[f_1_5; f_2_0]; [f_0_5]] /\
    tolist array = [[f_1_5; f_2_0]; [f_0_5]].
Proof.
  apply (wire_format_round_trip (H := libraries) [[f_1_5; f_2_0]; [f_0_5]]).
  - discriminate.
  - repeat constructor; discriminate.
  - repeat constructor.
  - reflexivity.
Defined.

Lemma training_writes_one_model_witness :
  fst (train_and_deploy.main training_world) = Ok tt /\
  files (snd (train_and_deploy.main training_world))
  = <["/opt/ml/model/model.joblib" := "male"]> (files training_world) /\
  (forall path, path <> "/opt/ml/model/model.joblib" ->
     files (snd (train_and_deploy.main training_world)) !! path
     = files training_world !! path).
Proof.
  eapply (training_writes_one_model (H := libraries) training_world
            _ _ _ _ (Str "male")); reflexivity.
Defined.

Lemma evaluation_writes_metrics_witness :
  exists metrics : gmap string json,
    fst (evaluate.main evaluation_world) = Ok tt /\
    files (snd (evaluate.main evaluation_world))
    = <["/opt/ml/processing/evaluation/evaluation.json" :=
          json_dumps None (JDict metrics)]>
        (<["model.joblib" := "male"]> (files evaluation_world)) /\
    metrics !! "accuracy" = Some (JFloat f_0_5) /\
    (forall key, key <> "accuracy" ->
       metrics !! key
       = ({[ "weighted avg" := JDict {[ "precision" := JFloat f_0_5 ]} ]}
          : gmap string json) !! key) /\
    (forall path,
       path <> "/opt/ml/processing/evaluation/evaluation.json" ->
       files (snd (evaluate.main evaluation_world)) !! path
       = (<["model.joblib" := "male"]> (files evaluation_world)) !! path).
Proof.
  eapply (evaluation_writes_metrics (H := libraries) evaluation_world);
    reflexivity.
Defined.

Lemma preprocessing_writes_four_files_witness :
  exists X_train X_test y_train y_test,
    train_test_split
      (pd.DataFrame_of_matrix
         [[f_1_5; f_2_0; f_0_5]; [f_0_5; preprocessing.float_0_3; f_0_5];
          [f_2_0; preprocessing.float_0_3; f_1_5]])
      (mkSeries (Name "sex") [Str "male"; Str "female"; Str "female"])
      preprocessing.float_0_3 42
    = Ok (X_train, X_test, y_train, y_test) /\
    let fs := files (snd (preprocessing.main [] preprocessing_world)) in
    fst (preprocessing.main [] preprocessing_world) = Ok tt /\
    fs !! "/opt/ml/processing/train/train_features.csv"
    = Some (frame_to_csv X_train false false) /\
    fs !! "/opt/ml/processing/test/test_features.csv"
    = Some (frame_to_csv X_test false false) /\
    fs !! "/opt/ml/processing/train/train_labels.csv"
    = Some (series_to_csv y_train false false) /\
    fs !! "/opt/ml/processing/test/test_labels.csv"
    = Some (series_to_csv y_test false false) /\
    (forall path,
       path ∉ [ "/opt/ml/processing/train/train_features.csv";
                "/opt/ml/processing/test/test_features.csv";
                "/opt/ml/processing/train/train_labels.csv";
                "/opt/ml/processing/test/test_labels.csv" ] ->
       fs !! path = files preprocessing_world !! path).
Proof.
  do 4 eexists. split; [reflexivity|].
  eapply (preprocessing_writes_four_files (H := libraries)
            [] preprocessing_world
            {[ "train_test_split" := preprocessing.float_0_3 ]} []
            preprocessing.float_0_3);
    reflexivity.
Defined.

Lemma preprocessing_partitions_cleaned_rows_witness :
  exists raw X X_train X_test y_train y_test,
    parse_csv HeaderInfer penguins_csv = Ok raw /\
    let selected :=
      df_rows (pd.reindex_columns raw preprocessing.columns) in
    let clean := df_rows (preprocessing.cleaned raw) in
    sublist clean selected /\
    Forall (fun row => pd.complete row = true) clean /\
    preprocessing.pairwise_distinct clean /\
    (forall row, row ∈ selected -> pd.complete row = true ->
       exists kept,
         kept ∈ clean /\ (row = kept \/ pd.row_eqb row kept = true)) /\
    fst (preprocessing.main [] preprocessing_world) = Ok tt /\
    files (snd (preprocessing.main [] preprocessing_world))
    = preprocessing.written (files preprocessing_world)
        X_train X_test y_train y_test /\
    Permutation
      (combine (df_rows X_train) (s_values y_train)
       ++ combine (df_rows X_test) (s_values y_test))%list
      (combine (map (map Num) X)
               (map (fun row => nth 5 row (Num pd.nan)) clean)) /\
    length (df_rows X_train) + length (df_rows X_test) = length clean.
Proof.
  do 6 eexists. split; [reflexivity|].
  eapply (preprocessing_partitions_cleaned_rows (H := libraries)
            [] preprocessing_world
            {[ "train_test_split" := preprocessing.float_0_3 ]} []
            preprocessing.float_0_3 _ _ _ _ _ _ _ [0; 1; 2] 1).
  all: reflexivity.
Defined.

End runs.

(** * Further properties of the serving input parser *)

Section input_fn_separators.
Context `{Libraries}.
Import train_and_deploy.
Local Open Scope string_scope.

(** A string that ends with the separator has an empty last field. *)
Lemma split_snoc_sep sep s :
  split sep (s ++ String sep "") = (split sep s ++ [""])%list.
Proof.
  induction s as [|c s IH].
  - simpl. by rewrite Ascii.eqb_refl.
  - rewrite string_app_cons. cbn [split]. rewrite IH.
    destruct (Ascii.eqb c sep); [done|].
    pose proof (split_nonempty sep s) as Hne.
    by destruct (split sep s).
Qed.

(** Text without the separator, put after a string, goes to its last
    field. *)
Lemma split_app_no_sep sep s t :
  mem_char sep t = false ->
  exists init last_field,
    split sep s = (init ++ [last_field])%list /\
    split sep (s ++ t) = (init ++ [last_field +:+ t])%list.
Proof.
  intros Ht. induction s as [|c s (init & last_field & Hs & Hst)].
  - exists [], "". split; [done|]. by apply split_no_sep.
  - rewrite string_app_cons. cbn [split]. rewrite Hs, Hst.
    destruct (Ascii.eqb c sep).
    + by exists ("" :: init), last_field.
    + destruct init as [|f init]; simpl.
      * by exists [], (String c last_field).
      * by exists (String c f :: init), last_field.
Qed.

Lemma empty_field_rejected request_body :
  is_ok (float "") = false ->
  In "" (request_fields request_body) ->
  is_ok (input_fn request_body "text/csv") = false.
Proof.
  intros Hempty Hin.
  apply not_true_is_false. intros Hall%input_fn_csv_is_ok.
  rewrite forallb_forall in Hall. apply Hall in Hin. congruence.
Qed.

(** X1: a request body with a separator at its start or at its end is
    rejected, because the field before or after that separator is empty
    and [float('')] raises.  The ['|'] the handler's loop leaves at the
    end has to be cut. *)
Theorem input_fn_rejects_outer_separator request_body :
  is_ok (float "") = false ->
  is_ok (input_fn (request_body ++ "|") "text/csv") = false /\
  is_ok (input_fn (request_body ++ ",") "text/csv") = false /\
  is_ok (input_fn ("|" ++ request_body) "text/csv") = false /\
  is_ok (input_fn ("," ++ request_body) "text/csv") = false.
Proof.
  intros Hempty. repeat split; apply empty_field_rejected; try done;
    unfold request_fields.
  - rewrite split_snoc_sep, map_app, concat_app. apply in_or_app. right.
    by left.
  - destruct (split_app_no_sep "|" request_body ",") as
      (init & last_field & _ & ->); [done|].
    rewrite map_app, concat_app. apply in_or_app. right. simpl.
    rewrite split_snoc_sep, app_nil_r. apply in_or_app. right. by left.
  - simpl. by left.
  - change ("," ++ request_body) with (String "," request_body).
    cbn [split]. change (Ascii.eqb "," "|") with false. cbn iota.
    pose proof (split_nonempty "|" request_body) as Hne.
    destruct (split "|" request_body) as [|f fs]; [done|]. simpl. by left.
Qed.

End input_fn_separators.

(** * Further properties of the handler of serving_lambda.py *)

Section handler_runs.
Context `{Libraries}.
Import serving_lambda.
Local Open Scope string_scope.

(** A handler that is stopped before the call to the endpoint raises
    what stopped it and has sent nothing. *)
Lemma lambda_handler_stopped endpoint_name event context w e :
  handler_request_body event = Err e ->
  fst (lambda_handler endpoint_name event context w) = Err e /\
  sent (snd (lambda_handler endpoint_name event context w)) = sent w /\
  files (snd (lambda_handler endpoint_name event context w)) = files w.
Proof.
  unfold handler_request_body, lambda_handler, invoke_endpoint. run_script.
  destruct (json_loads (json_dumps None event)) as [data|]; [|by intros [= ->]].
  destruct (match getitem data "data" with Ok a => loads a | Err e => Err e end)
    as [payload|]; [|by intros [= ->]].
  destruct (iter payload) as [samples|];
    cbn [files stdout sent fst snd]; [|by intros [= ->]].
  destruct (format_samples samples "") as [body|];
    cbn [files stdout sent fst snd]; [done|by intros [= ->]].
Qed.

(** A handler that gets to the call sends one request and returns what it
    makes of the answer. *)
Lemma lambda_handler_called endpoint_name event context w body :
  handler_request_body event = Ok body ->
  let req := mkRequest endpoint_name "text/csv" body in
  fst (lambda_handler endpoint_name event context w)
  = handler_label (endpoint req) /\
  sent (snd (lambda_handler endpoint_name event context w))
  = (sent w ++ [req])%list /\
  files (snd (lambda_handler endpoint_name event context w)) = files w.
Proof.
  unfold handler_request_body, handler_label, lambda_handler,
    invoke_endpoint.
  run_script.
  destruct (json_loads (json_dumps None event)) as [data|]; [|done].
  destruct (match getitem data "data" with Ok a => loads a | Err e => Err e end)
    as [payload|]; [|done].
  destruct (iter payload) as [samples|];
    cbn [files stdout sent fst snd]; [|done].
  destruct (format_samples samples "") as [body'|];
    cbn [files stdout sent fst snd]; [|done].
  intros [= <-]. destruct (endpoint _) as [bytes|]; [|done].
  by destruct (decode_utf8 bytes).
Qed.

(** X2: whatever the event, the handler writes no file and sends at most
    one request; a request it sends goes to the configured endpoint with
    content type ['text/csv'], and a handler that returns has sent one. *)
Theorem lambda_handler_sends_at_most_one_request endpoint_name event
    context w :
  let run := lambda_handler endpoint_name event context w in
  files (snd run) = files w /\
  (sent (snd run) = sent w \/
   exists body,
     sent (snd run)
     = (sent w ++ [mkRequest endpoint_name "text/csv" body])%list) /\
  (forall label, fst run = Ok label -> sent (snd run) <> sent w).
Proof.
  destruct (handler_request_body event) as [body|e] eqn:Hbody.
  - destruct (lambda_handler_called endpoint_name event context w body Hbody)
      as (Hret & Hsent & Hfiles).
    cbn zeta. rewrite Hsent. split; [done|]. split; [right; by exists body|].
    intros _ _ Heq. apply (f_equal length) in Heq.
    rewrite length_app in Heq. simpl in Heq. lia.
  - destruct (lambda_handler_stopped endpoint_name event context w e Hbody)
      as (Hret & Hsent & Hfiles).
    cbn zeta. rewrite Hret, Hsent. split; [done|]. split; [by left|done].
Qed.

(** X3: an event without a ['data'] key stops the handler with
    [KeyError('data')] before any request is sent. *)
Theorem lambda_handler_missing_data endpoint_name event context w d :
  event = JDict d ->
  d !! "data" = None ->
  json_loads (json_dumps None event) = Ok event ->
  fst (lambda_handler endpoint_name event context w)
  = Err (Raise "KeyError" "data") /\
  sent (snd (lambda_handler endpoint_name event context w)) = sent w.
Proof.
  intros -> Hdata Hround.
  destruct (lambda_handler_stopped endpoint_name (JDict d) context w
              (Raise "KeyError" "data")) as (Hret & Hsent & _); [|done].
  unfold handler_request_body. rewrite Hround. simpl. by rewrite Hdata.
Qed.

(** X4: an event whose ['data'] is not a string, for instance the list
    of samples itself instead of its JSON text, stops the handler with a
    [TypeError] before any request is sent. *)
Theorem lambda_handler_data_not_a_string endpoint_name event context w d
    field :
  event = JDict d ->
  d !! "data" = Some field ->
  (forall text, field <> JStr text) ->
  json_loads (json_dumps None event) = Ok event ->
  exists msg,
    fst (lambda_handler endpoint_name event context w)
    = Err (Raise "TypeError" msg) /\
    sent (snd (lambda_handler endpoint_name event context w)) = sent w.
Proof.
  intros -> Hdata Hfield Hround.
  exists "the JSON object must be str, bytes or bytearray".
  destruct (lambda_handler_stopped endpoint_name (JDict d) context w
              (Raise "TypeError"
                     "the JSON object must be str, bytes or bytearray"))
    as (Hret & Hsent & _); [|done].
  unfold handler_request_body. rewrite Hround. simpl. rewrite Hdata. simpl.
  destruct field; try done. by destruct (Hfield s).
Qed.



(** X6: an empty list of samples is not refused: [body[:-1]] of the empty
    string is the empty string, and the handler sends a request with an
    empty body. *)
Theorem lambda_handler_empty_payload endpoint_name event context w d text :
  event = JDict d ->
  d !! "data" = Some (JStr text) ->
  json_loads (json_dumps None event) = Ok event ->
  json_loads text = Ok (JList []) ->
  sent (snd (lambda_handler endpoint_name event context w))
  = (sent w ++ [mkRequest endpoint_name "text/csv" ""])%list.
Proof.
  intros -> Hdata Hround Htext.
  apply (lambda_handler_called endpoint_name (JDict d) context w "").
  unfold handler_request_body. rewrite Hround. simpl. rewrite Hdata. simpl.
  by rewrite Htext.
Qed.

End handler_runs.

(** * What the handler returns *)

Section handler_label.
Context `{Libraries}.
Import serving_lambda.
Local Open Scope string_scope.

Lemma lstrip_all_in chars pre s :
  all_in chars pre = true -> lstrip chars (pre ++ s) = lstrip chars s.
Proof.
  induction pre as [|c pre IH]; [done|]. cbn [all_in].
  intros [Hc Hpre]%andb_true_iff. rewrite string_app_cons. cbn [lstrip].
  rewrite Hc. by apply IH.
Qed.

Lemma lstrip_id chars s :
  (forall c, first_char s = Some c -> mem_char c chars = false) ->
  lstrip chars s = s.
Proof.
  destruct s as [|c s]; [done|]. intros Hfirst. cbn [lstrip].
  by rewrite (Hfirst c).
Qed.

Lemma rstrip_all_in chars post :
  all_in chars post = true -> rstrip chars post = "".
Proof.
  induction post as [|c post IH]; [done|]. cbn [all_in].
  intros [Hc Hpost]%andb_true_iff. cbn [rstrip].
  by rewrite (IH Hpost), Hc.
Qed.

Lemma rstrip_app chars s post :
  s <> "" ->
  (forall c, last_char s = Some c -> mem_char c chars = false) ->
  all_in chars post = true ->
  rstrip chars (s ++ post) = s.
Proof.
  intros Hne Hlast Hpost. induction s as [|c s IH]; [done|].
  rewrite string_app_cons. cbn [rstrip]. destruct s as [|d s].
  - change ("" ++ post) with post. rewrite (rstrip_all_in _ _ Hpost).
    by rewrite (Hlast c).
  - rewrite IH; [done|done|]. intros x Hx. by apply Hlast.
Qed.

Lemma last_char_snoc s c : last_char (s ++ String c "") = Some c.
Proof.
  induction s as [|d s IH]; [done|]. rewrite string_app_cons.
  cbn [last_char]. destruct (s ++ String c "") eqn:E; [by destruct s|].
  exact IH.
Qed.

(** Stripping gives back a text wrapped in characters of the set, when
    the text itself neither starts nor ends with one. *)
Lemma strip_exact chars pre s post :
  all_in chars pre = true ->
  all_in chars post = true ->
  s <> "" ->
  (forall c, first_char s = Some c -> mem_char c chars = false) ->
  (forall c, last_char s = Some c -> mem_char c chars = false) ->
  strip chars (pre ++ s ++ post) = s.
Proof.
  intros Hpre Hpost Hne Hfirst Hlast. unfold strip.
  rewrite lstrip_all_in by done. rewrite lstrip_id.
  - by apply rstrip_app.
  - intros c Hc. apply Hfirst. by destruct s.
Qed.

(** X7: when the endpoint answers the text of a one-label prediction,
    [['label']], the handler returns the bare label: the brackets and
    the quotes around it are removed and nothing else.  The label is
    taken to start and end with a character other than the single
    quote. *)
Theorem lambda_handler_single_label endpoint_name event context w body
    bytes label a b :
  sent (snd (lambda_handler endpoint_name event context w))
  = (sent w ++ [mkRequest endpoint_name "text/csv" body])%list ->
  endpoint (mkRequest endpoint_name "text/csv" body) = Ok bytes ->
  decode_utf8 bytes = Ok ("['" ++ label ++ "']") ->
  first_char label = Some a -> a <> "'"%char ->
  last_char label = Some b -> b <> "'"%char ->
  fst (lambda_handler endpoint_name event context w) = Ok label.
Proof.
  intros Hsent Hbytes Hdecoded Ha Hane Hb Hbne.
  destruct (handler_request_body event) as [body'|e] eqn:Hbody.
  2:{ destruct (lambda_handler_stopped endpoint_name event context w e Hbody)
        as (_ & Hsame & _).
      rewrite Hsame in Hsent. apply (f_equal length) in Hsent.
      rewrite length_app in Hsent. simpl in Hsent. lia. }
  destruct (lambda_handler_called endpoint_name event context w body' Hbody)
    as (Hret & Hsent' & _).
  rewrite Hsent' in Hsent. apply app_inv_head in Hsent.
  injection Hsent as ->. rewrite Hret, Hbytes. unfold handler_label.
  simpl. rewrite Hdecoded. simpl. f_equal.
  assert (strip "[]" ("['" ++ label ++ "']") = "'" ++ label ++ "'") as ->.
  { assert ("['" ++ label ++ "']" = "[" ++ ("'" ++ label ++ "'") ++ "]")
      as ->.
    { change ("[" ++ ("'" ++ label ++ "'") ++ "]")
        with (String "[" (String "'" ((label ++ "'") ++ "]"))).
      by rewrite string_app_assoc. }
    apply (strip_exact "[]" "[" ("'" ++ label ++ "'") "]"); try done.
    - by intros c [= <-].
    - intros c Hc.
      change ("'" ++ label ++ "'") with (("'" ++ label) ++ "'") in Hc.
      rewrite last_char_snoc in Hc. by injection Hc as <-. }
  apply (strip_exact "'" "'" label "'"); try done.
  - by destruct label.
  - intros c Hc. rewrite Ha in Hc. injection Hc as <-. simpl.
    destruct (Ascii.eqb_spec a "'"); [done|]. done.
  - intros c Hc. rewrite Hb in Hc. injection Hc as <-. simpl.
    destruct (Ascii.eqb_spec b "'"); [done|]. done.
Qed.

(** X8: whatever the endpoint answers, a label the handler returns
    neither starts nor ends with a single quote. *)
Theorem lambda_handler_label_without_outer_quotes endpoint_name event
    context w label :
  fst (lambda_handler endpoint_name event context w) = Ok label ->
  first_char label <> Some "'"%char /\ last_char label <> Some "'"%char.
Proof.
  intros Hret.
  destruct (handler_request_body event) as [body|e] eqn:Hbody.
  2:{ destruct (lambda_handler_stopped endpoint_name event context w e Hbody)
        as (Herr & _). congruence. }
  destruct (lambda_handler_called endpoint_name event context w body Hbody)
    as (Hlabel & _).
  rewrite Hlabel in Hret. unfold handler_label in Hret.
  destruct (endpoint _) as [bytes|]; [|done]. simpl in Hret.
  destruct (decode_utf8 bytes) as [decoded|]; [|done]. simpl in Hret.
  injection Hret as <-.
  destruct (strip_spec "'" (strip "[]" decoded))
    as (_ & _ & _ & _ & _ & Hfirst & Hlast).
  split; intros Hq; [apply Hfirst in Hq|apply Hlast in Hq]; done.
Qed.

End handler_label.

(** * Loading the model that the training job wrote *)

Section model_fn_properties.
Context `{Libraries}.
Import train_and_deploy.
Local Open Scope string_scope.

(** A training run in which every library call answers. *)
Lemma training_run w features_csv labels_csv X_train y_train model :
  files w !! "/opt/ml/input/data/train/train_features.csv"
  = Some features_csv ->
  files w !! "/opt/ml/input/data/train/train_labels.csv" = Some labels_csv ->
  parse_csv HeaderNone features_csv = Ok X_train ->
  parse_csv HeaderNone labels_csv = Ok y_train ->
  fit (mkLogisticRegression "balanced" "lbfgs")
      (OfFrame X_train) (OfFrame y_train) = Ok model ->
  main w
  = (Ok tt,
     mkWorld (<["/opt/ml/model/model.joblib" := joblib_dumps model]> (files w))
             (stdout w ++ ["Model saing path /opt/ml/model/model.joblib"])
             (sent w)).
Proof.
  intros HX Hy HparseX Hparsey Hfit.
  unfold main, pd.read_csv, joblib.dump.
  destruct training_paths as (-> & -> & ->). run_script.
  by rewrite HX, HparseX, Hy, Hparsey, Hfit.
Qed.

(** X9: the serving side finds what the training side left: after a
    training job that succeeds, [model_fn('/opt/ml/model')] returns the
    model that was fitted, provided [joblib.load] reads back what
    [joblib.dump] wrote. *)
Theorem model_fn_loads_trained_model w features_csv labels_csv X_train
    y_train model :
  files w !! "/opt/ml/input/data/train/train_features.csv"
  = Some features_csv ->
  files w !! "/opt/ml/input/data/train/train_labels.csv" = Some labels_csv ->
  parse_csv HeaderNone features_csv = Ok X_train ->
  parse_csv HeaderNone labels_csv = Ok y_train ->
  fit (mkLogisticRegression "balanced" "lbfgs")
      (OfFrame X_train) (OfFrame y_train) = Ok model ->
  joblib_loads (joblib_dumps model) = Ok model ->
  fst (model_fn "/opt/ml/model" (snd (main w))) = Ok model.
Proof.
  intros HX Hy HparseX Hparsey Hfit Hround.
  rewrite (training_run w _ _ _ _ _ HX Hy HparseX Hparsey Hfit).
  unfold model_fn, joblib.load.
  destruct training_paths as (_ & _ & ->). run_script.
  rewrite lookup_insert_eq. cbn [fst]. by rewrite Hround.
Qed.

Lemma string_length_app (a b : string) :
  String.length (a ++ b) = String.length a + String.length b.
Proof.
  induction a as [|c a IH]; [done|]. rewrite string_app_cons. simpl.
  by rewrite IH.
Qed.

Lemma string_get_snoc s c :
  String.get (String.length s) (s ++ String c "") = Some c.
Proof. induction s as [|d s IH]; [done|]. by rewrite string_app_cons. Qed.

Lemma ends_with_slash_snoc a : ends_with_slash (a ++ "/") = true.
Proof.
  unfold ends_with_slash. rewrite string_length_app. simpl.
  replace (String.length a + 1 - 1) with (String.length a) by lia.
  by rewrite string_get_snoc.
Qed.

(** [os.path.join] puts in the slash a directory lacks and none when it
    is there. *)
Lemma path_join_trailing_slash a b :
  a <> "" -> ends_with_slash a = false ->
  path_join (a ++ "/") b = path_join a b.
Proof.
  intros Hne Hslash. unfold path_join.
  destruct (String.prefix "/" b); [done|].
  rewrite ends_with_slash_snoc, Hslash, orb_true_r.
  apply String.eqb_neq in Hne. rewrite Hne. simpl.
  by rewrite string_app_assoc.
Qed.

(** X10: [model_fn] loads the same file whether or not the model
    directory is given with a slash at its end. *)
Theorem model_fn_trailing_slash model_dir w :
  model_dir <> "" -> ends_with_slash model_dir = false ->
  model_fn (model_dir ++ "/") w = model_fn model_dir w.
Proof.
  intros Hne Hslash. unfold model_fn.
  by rewrite path_join_trailing_slash.
Qed.

End model_fn_properties.

(** * Jobs that fail *)

Section all_or_nothing.
Context `{Libraries}.
Local Open Scope string_scope.

(** A preprocessing job that succeeds has made its four writes. *)
Lemma preprocessing_Ok argv w :
  fst (preprocessing.main argv w) = Ok tt ->
  exists X_train X_test y_train y_test,
    files (snd (preprocessing.main argv w))
    = preprocessing.written (files w) X_train X_test y_train y_test.
Proof.
  unfold preprocessing.main, preprocessing.getattr, pd.read_csv,
    pd.DataFrame_to_csv, pd.Series_to_csv,
    preprocessing.make_column_transformer.
  destruct preprocessing_paths as (-> & -> & -> & -> & ->). run_script.
  destruct (parse_known_args _ argv) as [[args rest]|]; [|done].
  destruct (args !! "train_test_split"); cbn [files stdout sent fst snd];
    [|done].
  destruct (files w !! _); cbn [files stdout sent fst snd]; [|done].
  destruct (parse_csv HeaderInfer _) as [raw|];
    cbn [files stdout sent fst snd]; [|done].
  change (pd.drop_duplicates
            (pd.dropna (pd.reindex_columns raw preprocessing.columns)))
    with (preprocessing.cleaned raw).
  rewrite drop_target, getitem_target.
  destruct (fit_transform _ _); cbn [files stdout sent fst snd]; [|done].
  destruct (train_test_split _ _ _ _)
    as [[[[X_train X_test] y_train] y_test]|];
    cbn [files stdout sent fst snd]; [|done].
  intros _. by exists X_train, X_test, y_train, y_test.
Qed.

(** X11: the preprocessing job does all its library calls before its
    first write.  When one of them raises (parsing the arguments, reading
    the input, the transform, the split) the job raises that exception
    and no file has been written or changed; a run that returns has
    written all four outputs; and in no run does any other file change:
    the input data are never modified. *)
Theorem preprocessing_writes_after_calls argv w :
  let run := preprocessing.main argv w in
  let outputs :=
    [ "/opt/ml/processing/train/train_features.csv";
      "/opt/ml/processing/test/test_features.csv";
      "/opt/ml/processing/train/train_labels.csv";
      "/opt/ml/processing/test/test_labels.csv" ] in
  (forall e, jobs.preprocessing_call_raises argv w e ->
             fst run = Err e /\ files (snd run) = files w) /\
  (fst run = Ok tt ->
   Forall (fun path => is_Some (files (snd run) !! path)) outputs) /\
  (forall path, path ∉ outputs ->
                files (snd run) !! path = files w !! path).
Proof.
  cbn zeta. split; [|split].
  - intros e Hraises%preprocessing_raises. split; [done|].
    by apply preprocessing_failure_writes_nothing with e.
  - intros (X_train & X_test & y_train & y_test & ->)%preprocessing_Ok.
    unfold preprocessing.written.
    repeat constructor; by simplify_map_eq.
  - intros path Hpath.
    destruct (fst (preprocessing.main argv w)) as [[]|e] eqn:Hret.
    + apply preprocessing_Ok in Hret
        as (X_train & X_test & y_train & y_test & ->).
      unfold preprocessing.written. rewrite !not_elem_of_cons in Hpath.
      destruct Hpath as (? & ? & ? & ? & _). by rewrite !lookup_insert_ne.
    + by rewrite (preprocessing_failure_writes_nothing argv w e).
Qed.

(** X12: the training job writes the model or nothing.  A run that
    raises leaves every file as it was; a run that returns has written
    [/opt/ml/model/model.joblib]; the training data are never modified. *)
Theorem training_all_or_nothing w :
  let run := train_and_deploy.main w in
  (forall e, fst run = Err e -> files (snd run) = files w) /\
  (fst run = Ok tt ->
   is_Some (files (snd run) !! "/opt/ml/model/model.joblib")) /\
  (forall path, path <> "/opt/ml/model/model.joblib" ->
                files (snd run) !! path = files w !! path).
Proof.
  cbn zeta. destruct (training_frame w) as [Hframe Hfail].
  split; [exact Hfail|]. split; [|exact Hframe].
  unfold train_and_deploy.main, pd.read_csv, joblib.dump.
  destruct training_paths as (-> & -> & ->). run_script.
  repeat next_call; try done.
  intros _. rewrite lookup_insert_eq. by eexists.
Qed.


End all_or_nothing.

(** * Further properties of the cleaning in preprocessing.py *)

Section cleaning_properties.
Import preprocessing.
Local Open Scope string_scope.

Implicit Types (row : list cell) (rows seen : list (list cell)).

Lemma filter_complete_id rows :
  Forall (fun row => pd.complete row = true) rows ->
  filter (fun row => pd.complete row = true) rows = rows.
Proof.
  induction 1 as [|row rows Hrow Hrows IH]; [done|].
  rewrite filter_cons_True by done. by rewrite IH.
Qed.

(** Rows of which none equals one before it, nor one seen, are all kept. *)
Lemma first_occurrences_id seen rows :
  Forall (fun r => existsb (pd.row_eqb r) seen = false) rows ->
  pairwise_distinct rows ->
  pd.first_occurrences seen rows = rows.
Proof.
  unfold pairwise_distinct. intros Hseen Hpairs. revert seen Hseen.
  induction Hpairs as [|r rows Hr Hpairs IH]; intros seen Hseen; [done|].
  inversion Hseen as [|? ? Hrseen Hrest]; subst.
  cbn [pd.first_occurrences]. rewrite Hrseen. f_equal. apply IH.
  apply Forall_forall. intros r' Hin. cbn [existsb].
  rewrite Forall_forall in Hr, Hrest.
  by rewrite (Hr r' Hin), (Hrest r' Hin).
Qed.

Lemma cleaned_rows_complete raw :
  Forall (fun row => pd.complete row = true) (df_rows (cleaned raw)).
Proof.
  apply Forall_forall. intros row Hin.
  eapply elem_of_sublist in Hin; [|apply cleaned_rows_sublist].
  by apply list_elem_of_filter in Hin as [? _].
Qed.

(** X14: cleaning is idempotent: selecting the six columns, dropping
    incomplete rows and dropping duplicates once more, on data already
    cleaned, changes nothing. *)
Theorem cleaned_idempotent raw : cleaned (cleaned raw) = cleaned raw.
Proof.
  assert (pd.reindex_columns (cleaned raw) columns = cleaned raw) as Hsel.
  { transitivity (mkDataFrame (map Name columns) (df_rows (cleaned raw)));
      [|reflexivity].
    unfold pd.reindex_columns. f_equal.
    rewrite <- (list_fmap_id (df_rows (cleaned raw))) at 2.
    apply Forall_fmap_ext.
    eapply Forall_impl; [apply cleaned_rows_length|].
    intros row Hrow. by do 7 (destruct row as [|? row]; try done). }
  unfold cleaned at 1. rewrite Hsel.
  transitivity (mkDataFrame (map Name columns) (df_rows (cleaned raw)));
    [|reflexivity].
  unfold pd.drop_duplicates, pd.dropna. cbn [df_columns df_rows]. f_equal.
  rewrite filter_complete_id by apply cleaned_rows_complete.
  apply first_occurrences_id; [by apply Forall_true|].
  apply (first_occurrences_distinct []).
Qed.

(** X15: an input that lacks one of the six selected columns is not
    refused: the column is filled with missing values, every row is
    dropped, and the cleaned data have no row. *)
Theorem cleaned_without_a_column raw name :
  In name columns ->
  pd.column_index (Name name) (df_columns raw) = None ->
  df_rows (cleaned raw) = [].
Proof.
  intros Hname Hindex. unfold cleaned, pd.drop_duplicates, pd.dropna.
  cbn [df_rows df_columns pd.reindex_columns].
  assert (filter (fun row => pd.complete row = true)
            (map (fun row =>
                    map (fun n =>
                           match pd.column_index (Name n) (df_columns raw)
                           with
                           | Some i => nth i row (Num pd.nan)
                           | None => Num pd.nan
                           end) columns) (df_rows raw)) = []) as ->; [|done].
  induction (df_rows raw) as [|row rows IH]; [done|].
  cbn [map]. rewrite filter_cons_False; [exact IH|].
  intros Hcomplete. unfold pd.complete in Hcomplete.
  rewrite forallb_forall in Hcomplete.
  specialize (Hcomplete (Num pd.nan)). apply not_false_iff_true in Hcomplete.
  - by apply Hcomplete.
  - apply in_map_iff. exists name. by rewrite Hindex.
Qed.

Lemma cell_eqb_isna (a b : cell) :
  pd.cell_eqb a b = true -> pd.isna a = pd.isna b.
Proof. destruct a as [[]|], b as [[]|]; done. Qed.

(** Rows that are equal for the duplicate detection are both complete or
    both not. *)
Lemma row_eqb_complete row1 row2 :
  pd.row_eqb row1 row2 = true -> pd.complete row1 = pd.complete row2.
Proof.
  revert row2. induction row1 as [|a row1 IH]; intros [|b row2]; try done.
  cbn [pd.row_eqb]. intros [Hab Hrows]%andb_true_iff.
  unfold pd.complete. cbn [forallb].
  rewrite (cell_eqb_isna a b Hab). f_equal. by apply IH.
Qed.

Lemma existsb_row_eqb_complete row seen :
  pd.complete row = true ->
  existsb (pd.row_eqb row)
          (filter (fun row => pd.complete row = true) seen)
  = existsb (pd.row_eqb row) seen.
Proof.
  intros Hrow. induction seen as [|s seen IH]; [done|].
  destruct (decide (pd.complete s = true)) as [Hs|Hs].
  - rewrite filter_cons_True by done. cbn [existsb]. by rewrite IH.
  - rewrite filter_cons_False by done. cbn [existsb]. rewrite IH.
    destruct (pd.row_eqb row s) eqn:Heq; [|done].
    apply row_eqb_complete in Heq. congruence.
Qed.

Lemma first_occurrences_filter seen rows :
  filter (fun row => pd.complete row = true)
         (pd.first_occurrences seen rows)
  = pd.first_occurrences
      (filter (fun row => pd.complete row = true) seen)
      (filter (fun row => pd.complete row = true) rows).
Proof.
  revert seen. induction rows as [|r rows IH]; intros seen; [done|].
  cbn [pd.first_occurrences].
  destruct (decide (pd.complete r = true)) as [Hr|Hr].
  - rewrite (filter_cons_True _ r rows) by done.
    cbn [pd.first_occurrences].
    rewrite existsb_row_eqb_complete by done.
    destruct (existsb (pd.row_eqb r) seen); [apply IH|].
    rewrite filter_cons_True by done. rewrite IH.
    by rewrite filter_cons_True.
  - rewrite (filter_cons_False _ r rows) by done.
    destruct (existsb (pd.row_eqb r) seen); [apply IH|].
    rewrite filter_cons_False by done. rewrite IH.
    by rewrite filter_cons_False.
Qed.

(** X16: the two cleaning steps can be done in either order: dropping
    incomplete rows and then duplicates leaves the same frame as dropping
    duplicates and then incomplete rows. *)
Theorem dropna_drop_duplicates_commute df :
  pd.drop_duplicates (pd.dropna df) = pd.dropna (pd.drop_duplicates df).
Proof.
  unfold pd.drop_duplicates, pd.dropna. cbn [df_columns df_rows]. f_equal.
  by rewrite first_occurrences_filter.
Qed.

(** X17: nothing is lost or shifted between the features and the labels:
    the frame given to the transformer has the five feature columns and
    not the label, and putting each of its rows back together with the
    label at the same position gives the cleaned rows. *)
Theorem features_and_labels_recombine raw :
  exists inputs labels,
    pd.drop (cleaned raw) target = Ok inputs /\
    pd.getitem (cleaned raw) target = Ok labels /\
    df_columns inputs = map Name features /\
    length (df_rows inputs) = length (s_values labels) /\
    zip_with (fun row label => (row ++ [label])%list)
             (df_rows inputs) (s_values labels)
    = df_rows (cleaned raw).
Proof.
  exists (feature_frame (cleaned raw)), (label_series (cleaned raw)).
  split; [apply drop_target|]. split; [apply getitem_target|].
  split; [done|]. unfold feature_frame, label_series.
  cbn [df_rows s_values]. split; [by rewrite !length_map|].
  pose proof (cleaned_rows_length raw) as Hlen.
  induction Hlen as [|row rows Hrow Hrows IH]; [done|].
  cbn [map zip_with]. rewrite IH. f_equal.
  by do 7 (destruct row as [|? row]; try done).
Qed.

End cleaning_properties.

(** * The notebook's own cells *)

Section notebook_cells.
Context `{Libraries}.
Import notebook.
Local Open Scope string_scope.

Lemma format_training_data_lines training_data body :
  format_training_data training_data body
  = body ++ String.concat ""
              (map (fun l => l ++ "|")
                   (map (fun sample =>
                           join "," (map (fun n => str (JFloat n)) sample))
                        training_data)).
Proof.
  revert body. induction training_data as [|sample rest IH]; intros body.
  - simpl. by rewrite string_app_nil_r.
  - cbn [format_training_data map]. rewrite IH, !string_app_assoc.
    f_equal. destruct rest; simpl; [done|].
    by rewrite !string_app_assoc.
Qed.

(** X18: the test call of the notebook and the handler build the same
    request body: for every list of samples, empty or not, the body of
    the test call is the values of each sample joined with [','] and the
    samples joined with ['|'], and it is what the handler's loop and cut
    give for the same samples. *)
Theorem request_body_matches_handler (training_data : list (list pyfloat)) :
  request_body training_data
  = join "|" (map (fun sample =>
                     join "," (map (fun n => str (JFloat n)) sample))
                  training_data) /\
  exists body,
    serving_lambda.format_samples
      (map (fun sample => JList (map JFloat sample)) training_data) ""
    = Ok body /\
    drop_last body = request_body training_data.
Proof.
  assert (request_body training_data
          = join "|" (map (fun sample =>
                             join "," (map (fun n => str (JFloat n)) sample))
                          training_data)) as Hjoin.
  { unfold request_body. rewrite format_training_data_lines.
    change ("" ++ ?s) with s.
    destruct training_data as [|sample rest]; [done|].
    by apply (drop_last_terminated "|"). }
  split; [exact Hjoin|].
  destruct training_data as [|sample rest]; [by exists ""|].
  destruct (format_samples_wire_format
              (map (map JFloat) (sample :: rest))) as (body & Hbody & Hwire);
    [done|].
  exists body. rewrite map_map in Hbody. split; [exact Hbody|].
  rewrite Hwire, Hjoin. unfold serving_lambda.wire_format.
  rewrite map_map. f_equal. apply map_ext. intros s. by rewrite map_map.
Qed.

(** X19: the notebook reads the training features back from
    [processed_data_bucket + "train_features.csv"].  This is the path
    [os.path.join] gives for that bucket and file exactly when the bucket
    is empty or ends with a slash; otherwise the slash between the two is
    missing. *)
Theorem training_features_path_is_joined processed_data_bucket :
  training_features_path processed_data_bucket
  = path_join processed_data_bucket "train_features.csv"
  <-> processed_data_bucket = "" \/
      ends_with_slash processed_data_bucket = true.
Proof.
  unfold training_features_path, path_join.
  change (String.prefix "/" "train_features.csv") with false. cbn iota.
  destruct (String.eqb_spec processed_data_bucket "") as [->|Hne].
  - simpl. split; [by left|done].
  - destruct (ends_with_slash processed_data_bucket); simpl.
    + split; [by right|done].
    + split.
      * intros Heq. apply String.app_inj in Heq. discriminate.
      * by intros [?|?].
Qed.

Lemma prefix_double_slash c rest :
  String.prefix "//" (String c rest)
  = Ascii.eqb c "/" && String.prefix "/" rest.
Proof.
  cbn [String.prefix]. destruct (ascii_dec "/" c) as [<-|Hne]; [done|].
  symmetry. apply andb_false_iff. left. apply Ascii.eqb_neq. congruence.
Qed.

(** A string without two slashes in a row is a single field for
    [split("//")]. *)
Lemma split_on_no_double_slash s :
  has_double_slash s = false -> split_on "//" 0 s = [s].
Proof.
  induction s as [|c s IH]; [done|]. cbn [has_double_slash].
  intros [Hhere Hrest]%orb_false_iff.
  cbn [split_on]. rewrite prefix_double_slash, Hhere. by rewrite IH.
Qed.

Lemma has_double_slash_no_slash s :
  mem_char "/" s = false -> has_double_slash s = false.
Proof.
  induction s as [|c s IH]; [done|]. cbn [mem_char has_double_slash].
  intros [Hc Hs]%orb_false_iff. rewrite Ascii.eqb_sym in Hc.
  by rewrite Hc, IH.
Qed.

Lemma has_double_slash_location bucket key :
  mem_char "/" bucket = false ->
  String.prefix "/" key = false ->
  has_double_slash key = false ->
  has_double_slash (bucket ++ String "/" key) = false.
Proof.
  intros Hbucket Hstart Hkey. induction bucket as [|c bucket IH].
  - change ("" ++ String "/" key) with (String "/" key).
    cbn [has_double_slash]. by rewrite Hstart, Hkey.
  - cbn [mem_char] in Hbucket.
    apply orb_false_iff in Hbucket as [Hc Hbucket].
    rewrite string_app_cons. cbn [has_double_slash].
    rewrite Ascii.eqb_sym in Hc. by rewrite Hc, IH.
Qed.

Lemma split_once_location bucket key :
  mem_char "/" bucket = false ->
  split_once "/" (bucket ++ String "/" key) = [bucket; key].
Proof.
  intros Hbucket. induction bucket as [|c bucket IH]; [done|].
  cbn [mem_char] in Hbucket.
  apply orb_false_iff in Hbucket as [Hc Hbucket].
  rewrite string_app_cons. cbn [split_once].
  rewrite Ascii.eqb_sym in Hc. by rewrite Hc, IH.
Qed.

Lemma split_once_no_sep sep s :
  mem_char sep s = false -> split_once sep s = [s].
Proof.
  induction s as [|c s IH]; [done|]. cbn [mem_char split_once].
  intros [Hc Hs]%orb_false_iff. rewrite Ascii.eqb_sym in Hc.
  by rewrite Hc, IH.
Qed.

Lemma split_on_s3 location :
  split_on "//" 0 ("s3://" ++ location)
  = "s3:" :: split_on "//" 0 location.
Proof.
  change ("s3://" ++ location)
    with (String "s" (String "3" (String ":"
            (String "/" (String "/" location))))).
  cbn [split_on String.prefix String.length Nat.sub]. simpl.
  destruct location; reflexivity.
Qed.

(** X20: the bucket and the key are read back from an S3 location: for a
    bucket name without a slash and a key that neither starts with a
    slash nor has two slashes in a row, the arguments computed for
    [get_object] from [s3://bucket/key] are the bucket and
    [key/evaluation.json]. *)
Theorem get_object_arguments_of_location bucket key :
  mem_char "/" bucket = false ->
  String.prefix "/" key = false ->
  has_double_slash key = false ->
  get_object_arguments ("s3://" ++ bucket ++ "/" ++ key)
  = Ok (bucket, key ++ "/evaluation.json").
Proof.
  intros Hbucket Hstart Hkey.
  unfold get_object_arguments, bucket_and_key, str_split.
  change (String.eqb "//" "") with false. cbn iota.
  rewrite split_on_s3.
  change (bucket ++ "/" ++ key) with (bucket ++ String "/" key).
  rewrite split_on_no_double_slash
    by by apply has_double_slash_location.
  simpl. by rewrite split_once_location.
Qed.

(** X21: what is not of that form is refused: a location without two
    slashes in a row raises [IndexError('list index out of range')], and
    a location that stops after the bucket name, [s3://bucket], raises
    [ValueError('not enough values to unpack (expected 2, got 1)')]
    because there is no key to unpack. *)
Theorem bucket_and_key_malformed :
  (forall s3_path,
     has_double_slash s3_path = false ->
     bucket_and_key s3_path
     = Err (Raise "IndexError" "list index out of range")) /\
  (forall bucket,
     mem_char "/" bucket = false ->
     bucket_and_key ("s3://" ++ bucket)
     = Err (Raise "ValueError"
                  "not enough values to unpack (expected 2, got 1)")).
Proof.
  split.
  - intros s3_path Hpath. unfold bucket_and_key, str_split.
    change (String.eqb "//" "") with false. cbn iota.
    by rewrite split_on_no_double_slash.
  - intros bucket Hbucket. unfold bucket_and_key, str_split.
    change (String.eqb "//" "") with false. cbn iota.
    rewrite split_on_s3.
    rewrite split_on_no_double_slash by by apply has_double_slash_no_slash.
    simpl. by rewrite split_once_no_sep.
Qed.

End notebook_cells.

(** * The further properties on concrete inputs *)

Section further_runs.
Local Open Scope string_scope.

Lemma input_fn_rejects_outer_separator_witness :
  is_ok (train_and_deploy.input_fn (H := sample.libraries)
           ("1.5,2.0|0.5" ++ "|") "text/csv") = false.
Proof.
  exact (proj1 (input_fn_rejects_outer_separator (H := sample.libraries)
                  "1.5,2.0|0.5" eq_refl)).
Defined.

Lemma lambda_handler_missing_data_witness :
  fst (serving_lambda.lambda_handler (H := sample_events.libraries)
         "penguins" sample_events.no_data JNull sample.empty_world)
  = Err (Raise "KeyError" "data") /\
  sent (snd (serving_lambda.lambda_handler (H := sample_events.libraries)
               "penguins" sample_events.no_data JNull sample.empty_world))
  = [].
Proof.
  exact (lambda_handler_missing_data (H := sample_events.libraries)
           "penguins" sample_events.no_data JNull sample.empty_world ∅
           eq_refl eq_refl eq_refl).
Defined.

Lemma lambda_handler_data_not_a_string_witness :
  exists msg,
    fst (serving_lambda.lambda_handler (H := sample_events.libraries)
           "penguins" sample_events.data_is_list JNull sample.empty_world)
    = Err (Raise "TypeError" msg) /\
    sent (snd (serving_lambda.lambda_handler
                 (H := sample_events.libraries)
                 "penguins" sample_events.data_is_list JNull
                 sample.empty_world))
    = [].
Proof.
  apply (lambda_handler_data_not_a_string (H := sample_events.libraries)
           "penguins" sample_events.data_is_list JNull sample.empty_world
           {[ "data" := JList [] ]} (JList [])).
  - reflexivity.
  - reflexivity.
  - discriminate.
  - reflexivity.
Defined.


Lemma lambda_handler_empty_payload_witness :
  sent (snd (serving_lambda.lambda_handler (H := sample_events.libraries)
               "penguins" (sample.event_of "[]") JNull sample.empty_world))
  = [mkRequest "penguins" "text/csv" ""].
Proof.
  exact (lambda_handler_empty_payload (H := sample_events.libraries)
           "penguins" (sample.event_of "[]") JNull sample.empty_world
           {[ "data" := JStr "[]" ]} "[]" eq_refl eq_refl eq_refl eq_refl).
Defined.

Lemma lambda_handler_single_label_witness :
  fst (serving_lambda.lambda_handler (H := sample.libraries)
         "penguins" sample.event JNull sample.empty_world)
  = Ok "male".
Proof.
  apply (lambda_handler_single_label (H := sample.libraries)
           "penguins" sample.event JNull sample.empty_world
           "1.5,2|0.5" "['male']" "male" "m" "e").
  - reflexivity.
  - reflexivity.
  - reflexivity.
  - reflexivity.
  - discriminate.
  - reflexivity.
  - discriminate.
Defined.

Lemma lambda_handler_label_without_outer_quotes_witness :
  first_char "male" <> Some "'"%char /\ last_char "male" <> Some "'"%char.
Proof.
  apply (lambda_handler_label_without_outer_quotes (H := sample.libraries)
           "penguins" sample.event JNull sample.empty_world "male").
  reflexivity.
Defined.

Lemma model_fn_loads_trained_model_witness :
  fst (train_and_deploy.model_fn (H := sample.libraries) "/opt/ml/model"
         (snd (train_and_deploy.main (H := sample.libraries)
                 sample.training_world)))
  = Ok (Str "male").
Proof.
  eapply (model_fn_loads_trained_model (H := sample.libraries)
            sample.training_world); reflexivity.
Defined.

Lemma model_fn_trailing_slash_witness :
  train_and_deploy.model_fn (H := sample.libraries)
    ("/opt/ml/model" ++ "/") sample.empty_world
  = train_and_deploy.model_fn (H := sample.libraries)
      "/opt/ml/model" sample.empty_world.
Proof.
  apply (model_fn_trailing_slash (H := sample.libraries)).
  - discriminate.
  - reflexivity.
Defined.


(** Without the input file the job stops at [pd.read_csv]. *)
Lemma preprocessing_writes_after_calls_witness :
  exists e,
    fst (preprocessing.main (H := sample.libraries) [] sample.empty_world)
    = Err e /\
    files (snd (preprocessing.main (H := sample.libraries) []
                  sample.empty_world))
    = files sample.empty_world.
Proof.
  eexists.
  apply (proj1 (preprocessing_writes_after_calls (H := sample.libraries) []
                  sample.empty_world)).
  eapply jobs.read_csv_raises; reflexivity.
Defined.

(** A frame without the ['sex'] column. *)
Lemma cleaned_without_a_column_witness :
  df_rows (preprocessing.cleaned
             (mkDataFrame
                [ Name "species"; Name "island"; Name "bill_length_mm";
                  Name "bill_depth_mm"; Name "flipper_length_mm" ]
                [ [ Str "Adelie"; Str "Torgersen"; Num sample.f_1_5;
                    Num sample.f_2_0; Num sample.f_0_5 ] ]))
  = [].
Proof.
  apply (cleaned_without_a_column _ "sex").
  - repeat (first [by left | right]).
  - reflexivity.
Defined.

Lemma get_object_arguments_of_location_witness :
  notebook.get_object_arguments
    ("s3://" ++ "sagemaker-eu" ++ "/" ++ "preprocessing/output/evaluation")
  = Ok ("sagemaker-eu",
        "preprocessing/output/evaluation" ++ "/evaluation.json").
Proof.
  apply get_object_arguments_of_location; reflexivity.
Defined.

Lemma bucket_and_key_malformed_witness :
  notebook.bucket_and_key "sagemaker-eu"
  = Err (Raise "IndexError" "list index out of range") /\
  notebook.bucket_and_key ("s3://" ++ "sagemaker-eu")
  = Err (Raise "ValueError"
               "not enough values to unpack (expected 2, got 1)").
Proof.
  destruct bucket_and_key_malformed as [Hindex Hvalue].
  split; [apply Hindex|apply Hvalue]; reflexivity.
Defined.

End further_runs.
